(** * Claude-Code-Usage-Monitor: calibration store and session display

    A shallow embedding of
      - [src/claude_monitor/data/calibration.py]  (module [Calibration])
      - [src/claude_monitor/ui/session_display.py] (module [SessionDisplay])
    together with the small fragment of Python they rely on (module [Py]).

    Python [float]s are embedded as exact rationals ([Q]): comparisons against
    the thresholds are exact on floats, and the arithmetic is carried out
    without rounding error.  NaN and the infinities are not represented, and
    neither is the [OverflowError] of converting an [int] beyond the float
    range ([Py.max_float]); statements that depend on it carry the range as a
    hypothesis. *)

From Stdlib Require Import ZArith QArith Qround Qabs Qminmax Lqa List String Ascii Bool Lia.
From Stdlib Require Import DecimalString.
Import ListNotations.

Local Open Scope string_scope.
Local Open Scope list_scope.
Set Warnings "-register-all".

(** String concatenation; [++] is kept for lists. *)
Infix "^^" := String.append (at level 60, right associativity).

(* ================================================================== *)
(** * A fragment of Python                                              *)
(* ================================================================== *)

Module Py.

(** ** Exceptions and the state-and-exception monad *)

Inductive exn : Type :=
| AttributeError (msg : string)
| TypeError (msg : string)
| ValueError (msg : string)
| ZeroDivisionError
| OSError (msg : string)
| PermissionError (msg : string).

(** What [f"{e}"] prints for an exception. *)
Definition exn_str (e : exn) : string :=
  match e with
  | AttributeError m | TypeError m | ValueError m | OSError m
  | PermissionError m => m
  | ZeroDivisionError => "division by zero"
  end.

Inductive result (A : Type) : Type :=
| Ok (a : A)
| Raise (e : exn).
Arguments Ok {A} a.
Arguments Raise {A} e.

Definition rbind {A B} (r : result A) (k : A -> result B) : result B :=
  match r with
  | Ok a => k a
  | Raise e => Raise e
  end.

(** A computation over a mutable state [S]: the state survives an exception,
    as the heap and the file system do in Python. *)
Definition M (S A : Type) : Type := S -> result A * S.

Definition ret {S A} (a : A) : M S A := fun s => (Ok a, s).
Definition raise {S A} (e : exn) : M S A := fun s => (Raise e, s).
Definition bind {S A B} (m : M S A) (k : A -> M S B) : M S B :=
  fun s => match m s with
           | (Ok a, s') => k a s'
           | (Raise e, s') => (Raise e, s')
           end.
Definition get {S} : M S S := fun s => (Ok s, s).
Definition modify {S} (f : S -> S) : M S unit := fun s => (Ok tt, f s).
Definition lift {S A} (r : result A) : M S A := fun s => (r, s).

(** [try: body  except Exception as e: handler(e)] *)
Definition try_except {S A} (body : M S A) (handler : exn -> M S A) : M S A :=
  fun s => match body s with
           | (Ok a, s') => (Ok a, s')
           | (Raise e, s') => handler e s'
           end.

Declare Scope py_scope.
Delimit Scope py_scope with py.
Notation "x <- m ;; k" := (bind m (fun x => k))
  (at level 61, m at next level, right associativity) : py_scope.
Notation "m ;;; k" := (bind m (fun _ => k))
  (at level 61, right associativity) : py_scope.
Notation "x <~ r ;; k" := (rbind r (fun x => k))
  (at level 61, r at next level, right associativity) : py_scope.

(** ** Values: what [json.load] can produce and what a [Dict[str, Any]] holds *)

Inductive pyval : Type :=
| PNone
| PBool (b : bool)
| PNum (q : Q)
| PStr (s : string)
| PList (l : list pyval)
| PDict (d : list (string * pyval)).

(** Truth value testing ([if x:], [not x]). *)
Definition truthy (v : pyval) : bool :=
  match v with
  | PNone => false
  | PBool b => b
  | PNum q => negb (Qeq_bool q 0)
  | PStr s => negb (String.eqb s "")
  | PList l => match l with [] => false | _ => true end
  | PDict d => match d with [] => false | _ => true end
  end.

Fixpoint assoc (d : list (string * pyval)) (k : string) : option pyval :=
  match d with
  | [] => None
  | (k', v) :: rest => if String.eqb k' k then Some v else assoc rest k
  end.

(** [d.get(k, default)] on a dict. *)
Definition dict_get (d : list (string * pyval)) (k : string) (default : pyval)
  : pyval :=
  match assoc d k with
  | Some v => v
  | None => default
  end.

(** [x.get(k, default)] on an arbitrary object: only dicts have [get]. *)
Definition py_get (x : pyval) (k : string) (default : pyval) : result pyval :=
  match x with
  | PDict d => Ok (dict_get d k default)
  | _ => Raise (AttributeError "object has no attribute 'get'")
  end.

(** Numbers: [int], [float] and [bool] (a subclass of [int]). *)
Definition as_num (v : pyval) : option Q :=
  match v with
  | PNum q => Some q
  | PBool true => Some 1%Q
  | PBool false => Some 0%Q
  | _ => None
  end.

Definition Qltb (a b : Q) : bool := if Qlt_le_dec a b then true else false.
Definition Qleb (a b : Q) : bool := if Qlt_le_dec b a then false else true.

(** [a > b] where [b] is a number. *)
Definition py_gt (a b : pyval) : result bool :=
  match as_num a, as_num b with
  | Some x, Some y => Ok (Qltb y x)
  | _, _ => Raise (TypeError "'>' not supported between these instances")
  end.

(** [a <= b] where [b] is a number. *)
Definition py_le (a b : pyval) : result bool :=
  match as_num a, as_num b with
  | Some x, Some y => Ok (Qleb x y)
  | _, _ => Raise (TypeError "'<=' not supported between these instances")
  end.

(** [a / b] (true division). *)
Definition py_truediv (a b : pyval) : result Q :=
  match as_num a, as_num b with
  | Some x, Some y =>
      if Qeq_bool y 0 then Raise ZeroDivisionError else Ok (x / y)%Q
  | _, _ => Raise (TypeError "unsupported operand type(s) for /")
  end.

(** [a * b] with [b] a float. *)
Definition py_mul (a : pyval) (b : Q) : result Q :=
  match as_num a with
  | Some x => Ok (x * b)%Q
  | None => Raise (TypeError "can't multiply by float")
  end.

(** A value already known to be a number, read as a float. *)
Definition as_float (a : pyval) : result Q :=
  match as_num a with
  | Some x => Ok x
  | None => Raise (TypeError "a number is required")
  end.

(** [min(a, b)]: the first argument unless the second is strictly smaller. *)
Definition py_min (a b : Q) : Q := if Qltb b a then b else a.

(** [max(a, b)]: the first argument unless the second is strictly larger. *)
Definition py_max (a b : Q) : Q := if Qltb a b then b else a.

(** [max(a, b, c)] keeps the first maximal argument. *)
Definition py_max3 (a b c : Q) : Q := py_max (py_max a b) c.

(** [sum(xs)]: left to right, starting from [0]. *)
Definition py_sum (xs : list Q) : Q := fold_left Qplus xs 0%Q.

(** [l[-n:]] for [n > 0]. *)
Definition slice_last {A} (n : nat) (l : list A) : list A :=
  skipn (List.length l - n) l.

(** ** Rounding and number formatting *)

(** Round to the nearest integer, ties to the even one. *)
Definition round_half_even (q : Q) : Z :=
  let f := Qfloor q in
  let r := (q - inject_Z f)%Q in
  match (r ?= 1 # 2)%Q with
  | Lt => f
  | Gt => (f + 1)%Z
  | Eq => if Z.even f then f else (f + 1)%Z
  end.

Definition pow10 (n : nat) : Z := (10 ^ Z.of_nat n)%Z.

(** [round(q, ndigits)] *)
Definition py_round (q : Q) (ndigits : nat) : Q :=
  (inject_Z (round_half_even (q * inject_Z (pow10 ndigits))) /
   inject_Z (pow10 ndigits))%Q.

Definition dec (z : Z) : string := NilZero.string_of_uint (N.to_uint (Z.to_N z)).

Fixpoint repeat_str (s : string) (n : nat) : string :=
  match n with
  | O => ""
  | S n' => s ^^ repeat_str s n'
  end.

Definition pad_left (c : string) (width : nat) (s : string) : string :=
  repeat_str c (width - String.length s) ^^ s.

(** [f"{q:W.Pf}"]: fixed point with [P] decimals, right-aligned in [W]
    columns. *)
Definition fmt_f (width prec : nat) (q : Q) : string :=
  let n := round_half_even (Qabs q * inject_Z (pow10 prec)) in
  let ip := (n / pow10 prec)%Z in
  let fp := (n mod pow10 prec)%Z in
  let sign := if Qltb q 0 then "-" else "" in
  let frac := match prec with
              | O => ""
              | _ => "." ^^ pad_left "0" prec (dec fp)
              end in
  pad_left " " width (sign ^^ dec ip ^^ frac).

Fixpoint group3 (rev_digits : list ascii) (k : nat) : list ascii :=
  match rev_digits with
  | [] => []
  | c :: rest =>
      match k with
      | 3%nat => ","%char :: c :: group3 rest 1
      | _ => c :: group3 rest (S k)
      end
  end.

(** [f"{z:,}"]: an integer with thousands separators. *)
Definition fmt_comma (z : Z) : string :=
  let digits := list_ascii_of_string (dec (Z.abs z)) in
  let body := string_of_list_ascii (rev (group3 (rev digits) 0)) in
  if (z <? 0)%Z then "-" ^^ body else body.

(** [f"{z}"] for an [int]. *)
Definition fmt_int (z : Z) : string :=
  if (z <? 0)%Z then "-" ^^ dec (Z.abs z) else dec z.

(** The largest finite float, [sys.float_info.max].  A number beyond it in
    absolute value can only be an [int], and converting such an [int] to a
    float (in [/], in [* 100.0], in a [.1f] format) raises [OverflowError]:
    those numbers are outside what the arithmetic above describes. *)
Definition max_float : Q := inject_Z ((2 ^ 53 - 1) * 2 ^ 971).

(** A value that, if it is a number, converts to a float. *)
Definition float_sized (v : pyval) : Prop :=
  forall q, as_num v = Some q -> (Qabs q <= max_float)%Q.

(** [sep.join(parts)] *)
Fixpoint join (sep : string) (parts : list string) : string :=
  match parts with
  | [] => ""
  | [p] => p
  | p :: rest => p ^^ sep ^^ join sep rest
  end.

End Py.


(* ================================================================== *)
(** * data/calibration.py                                               *)
(* ================================================================== *)

Module Calibration.
Import Py.
Local Open Scope py_scope.

Definition MAX_SAMPLES : nat := 20.

(** What a file holds when it exists: either something on which
    [open] / [json.load] raise, or a JSON document. *)
Inductive file_content : Type :=
| Unparsable (why : string)
| Json (data : pyval).

(** The store object together with the part of the world it touches. *)
Record State : Type := mkState {
  _samples : list pyval;           (* self._samples *)
  file : option file_content;      (* self.file_path, "calibration.json" *)
  temp : option file_content;      (* file_path.with_suffix(".tmp") *)
  warnings : list string           (* what logger.warning received *)
}.

Definition set_samples (l : list pyval) : M State unit :=
  modify (fun s => mkState l (file s) (temp s) (warnings s)).
Definition set_file (f : option file_content) : M State unit :=
  modify (fun s => mkState (_samples s) f (temp s) (warnings s)).
Definition set_temp (f : option file_content) : M State unit :=
  modify (fun s => mkState (_samples s) (file s) f (warnings s)).
Definition logger_warning (msg : string) : M State unit :=
  modify (fun s => mkState (_samples s) (file s) (temp s) (warnings s ++ [msg])).

(** [with open(path) as f: json.load(f)] *)
Definition json_load (c : file_content) : result pyval :=
  match c with
  | Unparsable why => Raise (ValueError why)
  | Json data => Ok data
  end.

(** [_load] once [self.file_path.exists()] has answered: [file s] is [None]
    for [False].  The stat behind [exists()] can also raise; [_load_under]
    below is the method under either outcome. *)
Definition _load : M State unit :=
  s <- get ;;
  match file s with
  | None => ret tt
  | Some content =>
      try_except
        (data <- lift (json_load content) ;;
         set_samples (match data with PList l => l | _ => [] end))
        (fun e =>
           logger_warning ("Failed to load calibration data: " ^^ exn_str e) ;;;
           set_samples [])
  end.

(** Which step of a save the operating system refuses, if any. *)
Inductive fault : Type :=
| NoFault
| MkdirFails (why : string)
| OpenFails (why : string)
| DumpFails (why : string)
| ReplaceFails (why : string).

(** [self.config_dir.mkdir(parents=True, exist_ok=True)] *)
Definition mkdir (io : fault) : M State unit :=
  match io with
  | MkdirFails why => raise (OSError why)
  | _ => ret tt
  end.

(** [open(temp, "w")]: creates or truncates the temporary file. *)
Definition open_w (io : fault) : M State unit :=
  match io with
  | OpenFails why => raise (OSError why)
  | _ => set_temp (Some (Unparsable "Expecting value: line 1 column 1 (char 0)"))
  end.

(** [json.dump(self._samples, f, indent=2)] *)
Definition json_dump (io : fault) : M State unit :=
  match io with
  | DumpFails why => raise (OSError why)
  | _ => s <- get ;; set_temp (Some (Json (PList (_samples s))))
  end.

(** [temp.replace(self.file_path)] *)
Definition replace (io : fault) : M State unit :=
  match io with
  | ReplaceFails why => raise (OSError why)
  | _ => s <- get ;; set_file (temp s) ;;; set_temp None
  end.

Definition _save (io : fault) : M State unit :=
  try_except
    (mkdir io ;;; open_w io ;;; json_dump io ;;; replace io)
    (fun e => logger_warning ("Failed to save calibration data: " ^^ exn_str e)).

(** The dict literal built by [add_sample]; [now] is
    [datetime.now(timezone.utc).isoformat()]. *)
Definition sample_dict (timestamp : string) (estimated_pct actual_pct : Q)
  : pyval :=
  PDict [ ("timestamp", PStr timestamp);
          ("estimated_pct", PNum estimated_pct);
          ("actual_pct", PNum actual_pct) ].

Definition new_sample (now : string) (estimated actual : Q) : pyval :=
  sample_dict now (py_round estimated 2) (py_round actual 2).

Definition add_sample (now : string) (estimated actual : Q) (io : fault)
  : M State unit :=
  s <- get ;;
  set_samples (_samples s ++ [new_sample now estimated actual]) ;;;
  s <- get ;;
  set_samples (slice_last MAX_SAMPLES (_samples s)) ;;;
  _save io.

(** The [for s in self._samples] loop of [get_multiplier]. *)
Fixpoint collect_ratios (samples : list pyval) (ratios : list Q)
  : result (list Q) :=
  match samples with
  | [] => Ok ratios
  | s :: rest =>
      est <~ py_get s "estimated_pct" (PNum 0) ;;
      act <~ py_get s "actual_pct" (PNum 0) ;;
      positive <~ py_gt est (PNum 0) ;;
      if positive : bool
      then r <~ py_truediv act est ;; collect_ratios rest (ratios ++ [r])
      else collect_ratios rest ratios
  end.

(** Lines 58-71: the multiplier of a history already in memory. *)
Definition mean_ratio (samples : list pyval) : result Q :=
  match samples with
  | [] => Ok 1%Q
  | _ =>
      ratios <~ collect_ratios samples [] ;;
      match ratios with
      | [] => Ok 1%Q
      | _ => Ok (py_sum ratios / inject_Z (Z.of_nat (List.length ratios)))%Q
      end
  end.

Definition get_multiplier : M State Q :=
  _load ;;;
  s <- get ;;
  lift (mean_ratio (_samples s)).

(** [CalibrationStore(config_dir)] over a given file system. *)
Definition __init__ : M State unit :=
  set_samples [] ;;; _load.

(** A directory in which nothing has been written yet. *)
Definition empty_dir : State := mkState [] None None [].

(** A sequence of [add_sample] calls, each with its clock reading and the
    fault (if any) that its save meets. *)
Definition call : Type := string * Q * Q * fault.

Definition sample_of (c : call) : pyval :=
  let '(now, est, act, _) := c in new_sample now est act.

Definition fault_of (c : call) : fault :=
  let '(_, _, _, io) := c in io.

Fixpoint add_samples (calls : list call) : M State unit :=
  match calls with
  | [] => ret tt
  | (now, est, act, io) :: rest =>
      add_sample now est act io ;;; add_samples rest
  end.

(** ** Notions used to state the store's properties *)

Definition save_warning (io : fault) : list string :=
  match io with
  | NoFault => []
  | MkdirFails why | OpenFails why | DumpFails why | ReplaceFails why =>
      ["Failed to save calibration data: " ^^ why]
  end.

(** The history [get_multiplier] computes on: the file's list when the file
    exists, nothing when it exists but does not hold a list, and whatever is
    in memory when there is no file. *)
Definition history_seen (s : State) : list pyval :=
  match file s with
  | None => _samples s
  | Some (Json (PList l)) => l
  | Some _ => []
  end.

Definition load_warning (s : State) : list string :=
  match file s with
  | Some (Unparsable why) => ["Failed to load calibration data: " ^^ why]
  | _ => []
  end.

Definition reloaded (s : State) : State :=
  match file s with
  | None => s
  | Some _ =>
      mkState (history_seen s) (file s) (temp s) (warnings s ++ load_warning s)
  end.

Record sample : Type := mkSample {
  timestamp : string;
  estimated_pct : Q;
  actual_pct : Q
}.

Definition stored (x : sample) : pyval :=
  sample_dict (timestamp x) (estimated_pct x) (actual_pct x).

(** The samples that count: those with a strictly positive estimate. *)
Definition qualifying (h : list sample) : list sample :=
  filter (fun x => Qltb 0 (estimated_pct x)) h.

Definition ratio (x : sample) : Q := (actual_pct x / estimated_pct x)%Q.

Fixpoint Qsum (l : list Q) : Q :=
  match l with
  | [] => 0%Q
  | x :: rest => (x + Qsum rest)%Q
  end.

(** The multiplier as the specification words it: the mean ratio over the
    qualifying samples, and [1] when none qualifies. *)
Definition spec_multiplier (h : list sample) : Q :=
  match qualifying h with
  | [] => 1%Q
  | qs => (Qsum (map ratio qs) / inject_Z (Z.of_nat (List.length qs)))%Q
  end.

(** [n] calls with distinct readings, none of which meets a fault. *)
Definition calls_upto (n : nat) : list call :=
  map (fun i => ("2026-01-01T00:00:00+00:00",
                 inject_Z (Z.of_nat i), inject_Z (Z.of_nat i + 1), NoFault))
      (seq 0 n).


(** ** The stat behind [Path.exists] *)

(** [self.file_path.exists()] stats the file.  A stat that fails because the
    file is not there makes it answer [False]; one that fails because the
    directory cannot be searched raises [PermissionError], and [_load] calls
    [exists()] before its [try], so nothing catches it. *)
Inductive probe : Type :=
| Answers
| Denied (why : string).

(** [_load] (lines 22-30) with the outcome of the stat as an input, the way
    [add_sample] takes the fault its save meets. *)
Definition _load_under (dir : probe) : M State unit :=
  match dir with
  | Denied why => raise (PermissionError why)
  | Answers => _load
  end.

(** [get_multiplier] (lines 55-71) and the constructor (lines 16-20) with
    the outcome of the stat of their [_load] as an input. *)
Definition get_multiplier_under (dir : probe) : M State Q :=
  _load_under dir ;;;
  s <- get ;;
  lift (mean_ratio (_samples s)).

Definition init_under (dir : probe) : M State unit :=
  set_samples [] ;;; _load_under dir.

(** The entries whose estimate and actual value, where they are numbers,
    convert to floats. *)
Definition float_sized_entries (entries : list pyval) : Prop :=
  forall d, In (PDict d) entries ->
    float_sized (dict_get d "estimated_pct" (PNum 0)) /\
    float_sized (dict_get d "actual_pct" (PNum 0)).

(** ** A session with the store *)





(** An entry the loop of [get_multiplier] gets through: a dict whose estimate
    is a number and, when the estimate is positive, whose actual value is a
    number too. *)
Definition usable (v : pyval) : bool :=
  match v with
  | PDict d =>
      match as_num (dict_get d "estimated_pct" (PNum 0)) with
      | Some est =>
          if Qltb 0 est
          then match as_num (dict_get d "actual_pct" (PNum 0)) with
               | Some _ => true
               | None => false
               end
          else true
      | None => false
      end
  | _ => false
  end.


End Calibration.

(* ================================================================== *)
(** * ui/session_display.py                                             *)
(* ================================================================== *)

Module SessionDisplay.
Import Py.
Local Open Scope py_scope.

(** What [datetime.fromisoformat] returns: an instant in microseconds since
    the epoch, with or without a UTC offset attached. *)
Inductive datetime : Type :=
| Aware (us : Z)
| Naive (us : Z).

(** The collaborators imported by the module: header, progress bars,
    indicators, themes, plan constants and the standard library's
    timestamp parser. *)
Class Collaborators : Type := {
  (* HeaderManager().create_header(plan, timezone) *)
  create_header : string -> string -> list string;
  (* claude_monitor.utils.time_utils.percentage *)
  percentage : Q -> Q -> Q;
  (* claude_monitor.core.plans.DEFAULT_COST_LIMIT *)
  DEFAULT_COST_LIMIT : Q;
  (* claude_monitor.terminal.themes.get_cost_style *)
  get_cost_style : Q -> string;
  (* TokenProgressBar(width)._calculate_filled_segments(percentage, max_value) *)
  _calculate_filled_segments : nat -> Q -> Q -> Z;
  (* TokenProgressBar(width)._render_bar(filled, filled_style=, empty_style=) *)
  _render_bar : nat -> Z -> option string -> option string -> string;
  (* TokenProgressBar().render(percentage) *)
  token_progress_render : Q -> string;
  (* TimeProgressBar().render(elapsed, total) *)
  time_progress_render : Q -> Q -> string;
  (* ModelUsageBar().render(per_model_stats) *)
  model_usage_render : list (string * pyval) -> string;
  (* VelocityIndicator.get_velocity_emoji(burn_rate) *)
  get_velocity_emoji : Q -> string;
  (* CostIndicator.render(cost) *)
  cost_indicator_render : Q -> string;
  (* datetime.fromisoformat; None stands for ValueError *)
  fromisoformat : string -> option datetime
}.

Record SessionDisplayData : Type := mkData {
  plan : string;
  timezone : string;
  tokens_used : Z;
  token_limit : Z;
  usage_percentage : Q;
  tokens_left : Z;
  elapsed_session_minutes : Q;
  total_session_minutes : Q;
  burn_rate : Q;
  session_cost : Q;
  per_model_stats : list (string * pyval);
  sent_messages : Z;
  entries : list pyval;
  predicted_end_str : string;
  reset_time_str : string;
  current_time_str : string;
  show_switch_notification : bool;
  show_exceed_notification : bool;
  show_tokens_will_run_out : bool;
  original_limit : Z
}.

(** The keyword arguments [format_active_session_screen] looks up in
    [**kwargs]; [None] is an absent key. *)
Record Kwargs : Type := mkKwargs {
  cost_limit_p90 : option Q;
  messages_limit_p90 : option Z;
  api_usage : option pyval;
  calibration_multiplier : option Q
}.

Definition no_kwargs : Kwargs := mkKwargs None None None None.

(** The list being filled, and the wall clock: [clock n] is what the
    [n]-th call of [datetime.now] returns, in microseconds. *)
Record Screen : Type := mkScreen {
  screen_buffer : list string;
  clock : nat -> Z;
  ticks : nat
}.

Definition append (line : string) : M Screen unit :=
  modify (fun s => mkScreen (screen_buffer s ++ [line]) (clock s) (ticks s)).
Definition extend (lines : list string) : M Screen unit :=
  modify (fun s => mkScreen (screen_buffer s ++ lines) (clock s) (ticks s)).
Definition datetime_now : M Screen Z :=
  fun s => (Ok (clock s (ticks s)),
            mkScreen (screen_buffer s) (clock s) (S (ticks s))).

(** [int(x)]: truncation towards zero. *)
Definition py_int (q : Q) : Z := if Qltb q 0 then Qceiling q else Qfloor q.

(** [s.replace("Z", "+00:00")] *)
Fixpoint replace_Z (s : string) : string :=
  match s with
  | EmptyString => EmptyString
  | String c rest =>
      if Ascii.eqb c "Z"%char then "+00:00" ^^ replace_Z rest
      else String c (replace_Z rest)
  end.

Definition separator : string := "[separator]" ^^ repeat_str "─" 60 ^^ "[/]".

(** ** Notions used to state the display's properties *)

Definition pushed (s : Screen) (lines : list string) : Screen :=
  mkScreen (screen_buffer s ++ lines) (clock s) (ticks s).

(** [m] returns normally, appends [lines] and does not read the clock. *)
Definition writes (m : M Screen unit) (lines : list string) : Prop :=
  forall s, m s = (Ok tt, pushed s lines).

Definition switch_line (token_limit : Z) : string :=
  "🔄 [warning]Token limit exceeded (" ^^ fmt_comma token_limit ^^ " tokens)[/]".
Definition exceed_line : string :=
  "⚠️  [error]You have exceeded the maximum cost limit![/]".
Definition run_out_line : string :=
  "⏰ [warning]Cost limit will be exceeded before reset![/]".

(** The notification lines, in the order they are emitted. *)
Definition notification_lines (switch exceed run_out : bool)
                              (original_limit token_limit : Z) : list string :=
  (if switch && (original_limit <? token_limit)%Z
   then [switch_line token_limit] else [])
  ++ (if exceed then [exceed_line] else [])
  ++ (if run_out then [run_out_line] else []).

(** The units shown for [d] days, [h] hours and [m] minutes: those that are
    not zero, and the minutes also when days and hours are both zero. *)
Definition unit_parts (d h m : Z) : list string :=
  (if (0 <? d)%Z then [fmt_int d ^^ "d"] else [])
  ++ (if (0 <? h)%Z then [fmt_int h ^^ "h"] else [])
  ++ (if (0 <? m)%Z || ((d =? 0)%Z && (h =? 0)%Z)
      then [fmt_int m ^^ "m"] else []).

Section Render.
Context {ext : Collaborators}.

Definition _render_wide_progress_bar (percentage : Q) : string :=
  let color :=
    if Qltb percentage 50 then "🟢"
    else if Qltb percentage 80 then "🟡"
    else "🔴" in
  let bar_style := get_cost_style percentage in
  let capped_percentage := py_min percentage 100 in
  let filled := _calculate_filled_segments 50 capped_percentage 100 in
  let filled_bar :=
    if Qleb 100 percentage
    then _render_bar 50 50%Z (Some bar_style) None
    else _render_bar 50 filled (Some bar_style) (Some "table.border") in
  color ^^ " [" ^^ filled_bar ^^ "]".

(** Lines 403-419: the text for a non-negative number of whole seconds. *)
Definition reset_text (total_seconds : Z) : string :=
  if (total_seconds =? 0)%Z then "now"
  else
    let days := (total_seconds / 86400)%Z in
    let hours := ((total_seconds mod 86400) / 3600)%Z in
    let minutes := ((total_seconds mod 3600) / 60)%Z in
    let parts := [] in
    let parts := if (0 <? days)%Z then parts ++ [fmt_int days ^^ "d"] else parts in
    let parts := if (0 <? hours)%Z then parts ++ [fmt_int hours ^^ "h"] else parts in
    let parts :=
      if (0 <? minutes)%Z || (match parts with [] => true | _ => false end)
      then parts ++ [fmt_int minutes ^^ "m"] else parts in
    "in " ^^ join " " parts.

Definition _format_reset_time (resets_at : pyval) : M Screen string :=
  try_except
    (text <- lift (match resets_at with
                   | PStr s => Ok (replace_Z s)
                   | _ => Raise (AttributeError "object has no attribute 'replace'")
                   end) ;;
     reset_dt <- lift (match fromisoformat text with
                       | Some d => Ok d
                       | None => Raise (ValueError "Invalid isoformat string")
                       end) ;;
     now <- datetime_now ;;
     delta <- lift (match reset_dt with
                    | Aware us => Ok (us - now)%Z
                    | Naive _ =>
                        Raise (TypeError
                          "can't subtract offset-naive and offset-aware datetimes")
                    end) ;;
     (* int(delta.total_seconds()) truncates towards zero *)
     let total_seconds := Z.max 0 (Z.quot delta 1000000) in
     ret (reset_text total_seconds))
    (fun _ => ret "").

(** One iteration of the loop over the two windows. *)
Definition render_window (api_usage : pyval) (window_key label : string)
  : M Screen unit :=
  window <- lift (py_get api_usage window_key PNone) ;;
  if negb (truthy window) then ret tt
  else
    utilization <- lift (py_get window "utilization" (PNum 0)) ;;
    fraction <- lift (py_le utilization (PNum 1)) ;;
    pct <- lift (if fraction : bool then py_mul utilization 100
                 else as_float utilization) ;;
    resets_at <- lift (py_get window "resets_at" (PStr "")) ;;
    let bar := _render_wide_progress_bar pct in
    reset_str <-
      (if truthy resets_at
       then r <- _format_reset_time resets_at ;;
            ret (if negb (String.eqb r "")
                 then "    [dim]resets " ^^ r ^^ "[/dim]" else r)
       else ret "") ;;
    append ("⚡ [value]Claude Usage (" ^^ label ^^ "):[/] " ^^ bar ^^ " "
            ^^ fmt_f 4 1 pct ^^ "%" ^^ reset_str).

Definition _render_api_usage (api_usage : pyval) : M Screen unit :=
  append "" ;;;
  append "[bold]⚡ Claude Official Usage[/bold]" ;;;
  render_window api_usage "five_hour" "5h" ;;;
  render_window api_usage "seven_day" "7d" ;;;
  append separator.

Definition _add_notifications
    (show_switch_notification show_exceed_notification
     show_tokens_will_run_out : bool) (original_limit token_limit : Z)
  : M Screen unit :=
  let notifications_added := false in
  notifications_added <-
    (if show_switch_notification && (original_limit <? token_limit)%Z
     then append ("🔄 [warning]Token limit exceeded (" ^^ fmt_comma token_limit
                  ^^ " tokens)[/]") ;;; ret true
     else ret notifications_added) ;;
  notifications_added <-
    (if show_exceed_notification : bool
     then append "⚠️  [error]You have exceeded the maximum cost limit![/]" ;;;
          ret true
     else ret notifications_added) ;;
  notifications_added <-
    (if show_tokens_will_run_out : bool
     then append "⏰ [warning]Cost limit will be exceeded before reset![/]" ;;;
          ret true
     else ret notifications_added) ;;
  if notifications_added : bool then append "" else ret tt.

Definition tiered_plans : list string := ["custom"; "pro"; "max5"; "max20"].

Definition is_tiered (plan : string) : bool :=
  existsb (String.eqb plan) tiered_plans.

Definition cost_percentage_of (session_cost cost_limit : Q) : Q :=
  if Qltb 0 cost_limit
  then py_min 100 (percentage session_cost cost_limit)
  else 0.

Definition messages_percentage_of (sent_messages messages_limit : Z) : Q :=
  if (0 <? messages_limit)%Z
  then py_min 100 (percentage (inject_Z sent_messages) (inject_Z messages_limit))
  else 0.

(** Lines 211-217: the predicted percentage and its label. *)
Definition predicted_usage (cost_percentage usage_percentage
                            messages_percentage multiplier : Q) : Q * string :=
  let predicted_pct :=
    py_max3 cost_percentage usage_percentage messages_percentage in
  if negb (Qeq_bool multiplier 1)
  then (py_min 100 (predicted_pct * multiplier), "Cal. Claude Usage")
  else (predicted_pct, "Est. Claude Usage").

Definition predicted_line (usage_label : string) (predicted_pct : Q) : string :=
  "⚡ [value]" ^^ usage_label ^^ ":[/]   "
  ^^ _render_wide_progress_bar predicted_pct ^^ " " ^^ fmt_f 4 1 predicted_pct
  ^^ "%    [dim](max of cost/tokens/messages)[/dim]".

Definition token_line (usage_percentage : Q) (tokens_used token_limit : Z)
  : string :=
  "📊 [value]Token Usage:[/]          "
  ^^ _render_wide_progress_bar usage_percentage ^^ " "
  ^^ fmt_f 4 1 usage_percentage ^^ "%    [value]" ^^ fmt_comma tokens_used
  ^^ "[/] / [dim]" ^^ fmt_comma token_limit ^^ "[/]".

Definition cost_per_min_of (session_cost elapsed_session_minutes : Q) : Q :=
  if Qltb 0 elapsed_session_minutes
  then session_cost / py_max 1 elapsed_session_minutes
  else 0.

(** [kwargs.get(key, default)] for the four keys looked up. *)
Definition cost_limit_of (kw : Kwargs) : Q :=
  match cost_limit_p90 kw with Some c => c | None => DEFAULT_COST_LIMIT end.
Definition messages_limit_of (kw : Kwargs) : Z :=
  match messages_limit_p90 kw with Some m => m | None => 1500%Z end.
Definition api_usage_of (kw : Kwargs) : pyval :=
  match api_usage kw with Some a => a | None => PNone end.
Definition multiplier_of (kw : Kwargs) : Q :=
  match calibration_multiplier kw with Some m => m | None => 1 end.

(** Lines 205-222: the official usage block, or the predicted-usage bar. *)
Definition render_usage_block (d : SessionDisplayData) (kw : Kwargs)
  : M Screen unit :=
  let cost_percentage :=
    cost_percentage_of (session_cost d) (cost_limit_of kw) in
  let messages_percentage :=
    messages_percentage_of (sent_messages d) (messages_limit_of kw) in
  let api_usage := api_usage_of kw in
  if truthy api_usage
  then _render_api_usage api_usage
  else
    let calibration_multiplier := multiplier_of kw in
    let '(predicted_pct, usage_label) :=
      predicted_usage cost_percentage (usage_percentage d)
                      messages_percentage calibration_multiplier in
    append "" ;;;
    append (predicted_line usage_label predicted_pct).

(** Lines 224-287: the cost, token, message and time bars and the rates. *)
Definition render_breakdown (d : SessionDisplayData) (kw : Kwargs)
  : M Screen unit :=
  let cost_limit_p90 := cost_limit_of kw in
  let messages_limit_p90 := messages_limit_of kw in
  let cost_percentage := cost_percentage_of (session_cost d) cost_limit_p90 in
  let messages_percentage :=
    messages_percentage_of (sent_messages d) messages_limit_p90 in
  append "" ;;;
  (if String.eqb (plan d) "custom"
   then append "[bold]📊 Session-Based Dynamic Limits[/bold]" ;;;
        append "[dim]Based on your historical usage patterns when hitting limits (P90)[/dim]" ;;;
        append separator
   else append "") ;;;
  append ("💰 [value]Cost Usage:[/]           "
          ^^ _render_wide_progress_bar cost_percentage ^^ " "
          ^^ fmt_f 4 1 cost_percentage ^^ "%    [value]$"
          ^^ fmt_f 0 2 (session_cost d) ^^ "[/] / [dim]$"
          ^^ fmt_f 0 2 cost_limit_p90 ^^ "[/]") ;;;
  append "" ;;;
  append (token_line (usage_percentage d) (tokens_used d) (token_limit d)) ;;;
  append "" ;;;
  append ("📨 [value]Messages Usage:[/]       "
          ^^ _render_wide_progress_bar messages_percentage ^^ " "
          ^^ fmt_f 4 1 messages_percentage ^^ "%    [value]"
          ^^ fmt_int (sent_messages d) ^^ "[/] / [dim]"
          ^^ fmt_comma messages_limit_p90 ^^ "[/]") ;;;
  append separator ;;;
  let time_percentage :=
    if Qltb 0 (total_session_minutes d)
    then percentage (elapsed_session_minutes d) (total_session_minutes d)
    else 0 in
  let time_remaining :=
    py_max 0 (total_session_minutes d - elapsed_session_minutes d) in
  let time_left_hours := py_int (inject_Z (Qfloor (time_remaining / 60))) in
  let time_left_mins :=
    py_int (time_remaining - 60 * inject_Z (Qfloor (time_remaining / 60))) in
  append ("⏱️  [value]Time to Reset:[/]       "
          ^^ _render_wide_progress_bar time_percentage ^^ " "
          ^^ fmt_int time_left_hours ^^ "h " ^^ fmt_int time_left_mins ^^ "m") ;;;
  append "" ;;;
  (match per_model_stats d with
   | [] => append ("🤖 [value]Model Distribution:[/]   " ^^ model_usage_render [])
   | stats => append ("🤖 [value]Model Distribution:[/]   "
                      ^^ model_usage_render stats)
   end) ;;;
  append separator ;;;
  append ("🔥 [value]Burn Rate:[/]              [warning]"
          ^^ fmt_f 0 1 (burn_rate d) ^^ "[/] [dim]tokens/min[/] "
          ^^ get_velocity_emoji (burn_rate d)) ;;;
  append ("💲 [value]Cost Rate:[/]              "
          ^^ cost_indicator_render
               (cost_per_min_of (session_cost d) (elapsed_session_minutes d))
          ^^ " [dim]$/min[/]").

Definition render_tiered (d : SessionDisplayData) (kw : Kwargs)
  : M Screen unit :=
  render_usage_block d kw ;;; render_breakdown d kw.

Definition render_simple (d : SessionDisplayData) : M Screen unit :=
  append ("💲 [value]Session Cost:[/]   "
          ^^ cost_indicator_render (session_cost d)) ;;;
  append ("💲 [value]Cost Rate:[/]      "
          ^^ cost_indicator_render
               (cost_per_min_of (session_cost d) (elapsed_session_minutes d))
          ^^ " [dim]$/min[/]") ;;;
  append "" ;;;
  append ("📊 [value]Token Usage:[/]    "
          ^^ token_progress_render (usage_percentage d)) ;;;
  append "" ;;;
  append ("🎯 [value]Tokens:[/]         [value]" ^^ fmt_comma (tokens_used d)
          ^^ "[/] / [dim]~" ^^ fmt_comma (token_limit d) ^^ "[/] ([info]"
          ^^ fmt_comma (tokens_left d) ^^ " left[/])") ;;;
  append ("🔥 [value]Burn Rate:[/]      [warning]" ^^ fmt_f 0 1 (burn_rate d)
          ^^ "[/] [dim]tokens/min[/] " ^^ get_velocity_emoji (burn_rate d)) ;;;
  append ("📨 [value]Sent Messages:[/]  [info]" ^^ fmt_int (sent_messages d)
          ^^ "[/] [dim]messages[/]") ;;;
  (match per_model_stats d with
   | [] => ret tt
   | stats => append ("🤖 [value]Model Usage:[/]    " ^^ model_usage_render stats)
   end) ;;;
  append "" ;;;
  append ("⏱️  [value]Time to Reset:[/]  "
          ^^ time_progress_render (elapsed_session_minutes d)
                                  (total_session_minutes d)) ;;;
  append "".

(** Lines 331-352: predictions, notifications and the status line. *)
Definition render_footer (d : SessionDisplayData) : M Screen unit :=
  append "" ;;;
  append "🔮 [value]Predictions:[/]" ;;;
  append ("   [info]Tokens will run out:[/] [warning]" ^^ predicted_end_str d
          ^^ "[/]") ;;;
  append ("   [info]Limit resets at:[/]     [success]" ^^ reset_time_str d
          ^^ "[/]") ;;;
  append "" ;;;
  _add_notifications (show_switch_notification d) (show_exceed_notification d)
                     (show_tokens_will_run_out d) (original_limit d)
                     (token_limit d) ;;;
  append ("⏰ [dim]" ^^ current_time_str d
          ^^ "[/] 📝 [success]Active session[/] | [dim]Ctrl+C to exit[/] 🟢").

Definition format_active_session_screen (d : SessionDisplayData) (kw : Kwargs)
  : M Screen (list string) :=
  modify (fun s => mkScreen [] (clock s) (ticks s)) ;;;
  extend (create_header (plan d) (timezone d)) ;;;
  (if is_tiered (plan d) then render_tiered d kw else render_simple d) ;;;
  render_footer d ;;;
  s <- get ;;
  ret (screen_buffer s).

Definition format_active_session_screen_v2 (d : SessionDisplayData)
  : M Screen (list string) :=
  format_active_session_screen d no_kwargs.

(** A render started at clock reading [now] that then stands still. *)
Definition start (now : Z) : Screen := mkScreen [] (fun _ => now) 0.

(** The screen once the header is in place. *)
Definition with_header (d : SessionDisplayData) (s : Screen) : Screen :=
  mkScreen (create_header (plan d) (timezone d)) (clock s) (ticks s).

Definition usage_line (label : string) (pct : Q) (reset_str : string) : string :=
  "⚡ [value]Claude Usage (" ^^ label ^^ "):[/] "
  ^^ _render_wide_progress_bar pct ^^ " " ^^ fmt_f 4 1 pct ^^ "%" ^^ reset_str.

(** A window the loop can render: missing or falsy, or a non-empty dict whose
    utilization is a number. *)
Definition renderable (a : list (string * pyval)) (key : string) : Prop :=
  truthy (dict_get a key PNone) = false \/
  exists w u, dict_get a key PNone = PDict w /\ w <> [] /\
              as_num (dict_get w "utilization" (PNum 0)) = Some u.

(** A window whose utilization, if it is a number, converts to a float. *)
Definition float_sized_window (a : list (string * pyval)) (key : string)
  : Prop :=
  forall w, dict_get a key PNone = PDict w ->
            float_sized (dict_get w "utilization" (PNum 0)).

(** What one window contributes to the screen. *)
Inductive window_shows (a : list (string * pyval)) (key label : string)
  : list string -> Prop :=
| shows_nothing :
    truthy (dict_get a key PNone) = false ->
    window_shows a key label []
| shows_fraction w u reset_str :
    dict_get a key PNone = PDict w -> w <> [] ->
    as_num (dict_get w "utilization" (PNum 0)) = Some u ->
    (u <= 1)%Q ->
    window_shows a key label [usage_line label (u * 100) reset_str]
| shows_percentage w u reset_str :
    dict_get a key PNone = PDict w -> w <> [] ->
    as_num (dict_get w "utilization" (PNum 0)) = Some u ->
    (1 < u)%Q ->
    window_shows a key label [usage_line label u reset_str].

(** ** Notions used to state further properties of the display *)

(** The status line that closes an active-session screen. *)
Definition status_line (d : SessionDisplayData) : string :=
  "⏰ [dim]" ^^ current_time_str d
  ^^ "[/] 📝 [success]Active session[/] | [dim]Ctrl+C to exit[/] 🟢".

(** What [render_footer] appends. *)
Definition footer_lines (d : SessionDisplayData) : list string :=
  [ "";
    "🔮 [value]Predictions:[/]";
    "   [info]Tokens will run out:[/] [warning]" ^^ predicted_end_str d ^^ "[/]";
    "   [info]Limit resets at:[/]     [success]" ^^ reset_time_str d ^^ "[/]";
    "" ]
  ++ match notification_lines (show_switch_notification d)
                              (show_exceed_notification d)
                              (show_tokens_will_run_out d)
                              (original_limit d) (token_limit d) with
     | [] => []
     | notes => notes ++ [""]
     end
  ++ [status_line d].

(** Lines 252-263: the time bar of the tiered view and its parts. *)
Definition time_percentage_of (d : SessionDisplayData) : Q :=
  if Qltb 0 (total_session_minutes d)
  then percentage (elapsed_session_minutes d) (total_session_minutes d)
  else 0.

Definition time_remaining_of (d : SessionDisplayData) : Q :=
  py_max 0 (total_session_minutes d - elapsed_session_minutes d).

Definition time_left_hours_of (d : SessionDisplayData) : Z :=
  py_int (inject_Z (Qfloor (time_remaining_of d / 60))).

Definition time_left_mins_of (d : SessionDisplayData) : Z :=
  py_int (time_remaining_of d
          - 60 * inject_Z (Qfloor (time_remaining_of d / 60))).

Definition time_line (d : SessionDisplayData) : string :=
  "⏱️  [value]Time to Reset:[/]       "
  ^^ _render_wide_progress_bar (time_percentage_of d) ^^ " "
  ^^ fmt_int (time_left_hours_of d) ^^ "h "
  ^^ fmt_int (time_left_mins_of d) ^^ "m".

(** Lines 378-385: the annotation after the percentage of a window, the
    clock reading [now]. *)
Definition reset_suffix (resets_at : pyval) (now : Z) : string :=
  if truthy resets_at
  then match resets_at with
       | PStr iso =>
           match fromisoformat (replace_Z iso) with
           | Some (Aware t) =>
               "    [dim]resets "
               ^^ reset_text (Z.max 0 (Z.quot (t - now) 1000000)) ^^ "[/dim]"
           | _ => ""
           end
       | _ => ""
       end
  else "".

(** The part of the screen between the header and the footer. *)
Definition body (d : SessionDisplayData) (kw : Kwargs) : M Screen unit :=
  if is_tiered (plan d) then render_tiered d kw else render_simple d.

(** The keyword arguments with another calibration multiplier. *)
Definition with_multiplier (kw : Kwargs) (m : option Q) : Kwargs :=
  mkKwargs (cost_limit_p90 kw) (messages_limit_p90 kw) (api_usage kw) m.

End Render.

(** Whether it returns or raises, [m] keeps what the buffer held and leaves
    the clock function alone. *)
Definition grows {A} (m : M Screen A) : Prop :=
  forall s, exists lines,
    screen_buffer (snd (m s)) = screen_buffer s ++ lines /\
    clock (snd (m s)) = clock s.

(** ** The screen shown when no session is active *)

(** The exceptions the time computation of the idle screen can raise:
    [pytz.exceptions.UnknownTimeZoneError], or one of the built-in ones. *)
Inductive clock_exn : Type :=
| UnknownTimeZoneError (zone : string)
| Builtin (e : exn).

Inductive clock_result (A : Type) : Type :=
| ClockOk (a : A)
| ClockRaise (e : clock_exn).
Arguments ClockOk {A} a.
Arguments ClockRaise {A} e.

Definition cbind {A B} (r : clock_result A) (k : A -> clock_result B)
  : clock_result B :=
  match r with
  | ClockOk a => k a
  | ClockRaise e => ClockRaise e
  end.

(** The time collaborators of [format_no_active_session_screen]. *)
Class TimeCollaborators : Type := {
  (* the parsed command line (argparse.Namespace) *)
  Args : Type;
  tzinfo : Type;
  time_format : Type;
  (* args.timezone; AttributeError when the attribute is missing *)
  args_timezone : Args -> clock_result string;
  (* pytz.timezone *)
  pytz_timezone : string -> clock_result tzinfo;
  (* current_time.astimezone(display_tz) *)
  astimezone : datetime -> tzinfo -> clock_result datetime;
  (* claude_monitor.utils.time_utils.get_time_format_preference *)
  get_time_format_preference : Args -> clock_result time_format;
  (* claude_monitor.utils.time_utils.format_display_time(.., include_seconds=True) *)
  format_display_time : datetime -> time_format -> bool -> clock_result string
}.

Section Idle.
Context {ext : Collaborators} {time : TimeCollaborators}.

(** The body of the [try] of lines 508-518. *)
Definition display_time (current_time : datetime) (args : Args)
  : clock_result string :=
  cbind (args_timezone args) (fun zone =>
  cbind (pytz_timezone zone) (fun display_tz =>
  cbind (astimezone current_time display_tz) (fun current_time_display =>
  cbind (get_time_format_preference args) (fun preference =>
  format_display_time current_time_display preference true)))).

(** [current_time] and [args] are [None] when not given; a datetime and a
    parsed command line are both truthy. *)
Definition format_no_active_session_screen
    (plan timezone : string) (token_limit : Z)
    (current_time : option datetime) (args : option Args)
  : clock_result (list string) :=
  let screen_buffer := [] in
  let screen_buffer := screen_buffer ++ create_header plan timezone in
  let empty_token_bar := token_progress_render 0 in
  let screen_buffer :=
    screen_buffer ++ ["📊 [value]Token Usage:[/]    " ^^ empty_token_bar] in
  let screen_buffer := screen_buffer ++ [""] in
  let screen_buffer :=
    screen_buffer
    ++ ["🎯 [value]Tokens:[/]         [value]0[/] / [dim]~"
        ^^ fmt_comma token_limit ^^ "[/] ([info]0 left[/])"] in
  let screen_buffer :=
    screen_buffer
    ++ ["🔥 [value]Burn Rate:[/]      [warning]0.0[/] [dim]tokens/min[/]"] in
  let screen_buffer :=
    screen_buffer
    ++ ["💲 [value]Cost Rate:[/]      [cost.low]$0.00[/] [dim]$/min[/]"] in
  let screen_buffer :=
    screen_buffer ++ ["📨 [value]Sent Messages:[/]  [info]0[/] [dim]messages[/]"] in
  let screen_buffer := screen_buffer ++ [""] in
  match current_time, args with
  | Some current_time, Some args =>
      match display_time current_time args with
      | ClockOk current_time_str =>
          ClockOk (screen_buffer
                   ++ ["⏰ [dim]" ^^ current_time_str
                       ^^ "[/] 📝 [info]No active session[/] | [dim]Ctrl+C to exit[/] 🟨"])
      | ClockRaise (UnknownTimeZoneError _)
      | ClockRaise (Builtin (AttributeError _)) =>
          ClockOk (screen_buffer
                   ++ ["⏰ [dim]--:--:--[/] 📝 [info]No active session[/] | [dim]Ctrl+C to exit[/] 🟨"])
      | ClockRaise e => ClockRaise e
      end
  | _, _ =>
      ClockOk (screen_buffer
               ++ ["⏰ [dim]--:--:--[/] 📝 [info]No active session[/] | [dim]Ctrl+C to exit[/] 🟨"])
  end.

(** The status line of the idle screen. *)
Definition idle_status (current_time_str : string) : string :=
  "⏰ [dim]" ^^ current_time_str
  ^^ "[/] 📝 [info]No active session[/] | [dim]Ctrl+C to exit[/] 🟨".

(** How the time shown is arrived at, step by step: the first step that
    raises decides, and the text is that of the last step otherwise. *)
Inductive time_outcome (t : datetime) (a : Args)
  : clock_result string -> Prop :=
| no_timezone e :
    args_timezone a = ClockRaise e ->
    time_outcome t a (ClockRaise e)
| no_such_zone zone e :
    args_timezone a = ClockOk zone ->
    pytz_timezone zone = ClockRaise e ->
    time_outcome t a (ClockRaise e)
| no_conversion zone tz e :
    args_timezone a = ClockOk zone ->
    pytz_timezone zone = ClockOk tz ->
    astimezone t tz = ClockRaise e ->
    time_outcome t a (ClockRaise e)
| no_preference zone tz local e :
    args_timezone a = ClockOk zone ->
    pytz_timezone zone = ClockOk tz ->
    astimezone t tz = ClockOk local ->
    get_time_format_preference a = ClockRaise e ->
    time_outcome t a (ClockRaise e)
| formatted zone tz local preference r :
    args_timezone a = ClockOk zone ->
    pytz_timezone zone = ClockOk tz ->
    astimezone t tz = ClockOk local ->
    get_time_format_preference a = ClockOk preference ->
    format_display_time local preference true = r ->
    time_outcome t a r.

(** The seven lines between the header and the status line. *)
Definition idle_lines (token_limit : Z) : list string :=
  [ "📊 [value]Token Usage:[/]    " ^^ token_progress_render 0;
    "";
    "🎯 [value]Tokens:[/]         [value]0[/] / [dim]~"
      ^^ fmt_comma token_limit ^^ "[/] ([info]0 left[/])";
    "🔥 [value]Burn Rate:[/]      [warning]0.0[/] [dim]tokens/min[/]";
    "💲 [value]Cost Rate:[/]      [cost.low]$0.00[/] [dim]$/min[/]";
    "📨 [value]Sent Messages:[/]  [info]0[/] [dim]messages[/]";
    "" ].

End Idle.
End SessionDisplay.

(* ================================================================== *)
(** * A concrete set of collaborators                                   *)
(* ================================================================== *)

(** Stand-ins for the imported collaborators, used to run the render on
    concrete inputs.  Every theorem below holds for an arbitrary instance of
    [Collaborators]; only the worked examples use this one. *)
Module Standin.
Import Py SessionDisplay.

Definition digit (c : ascii) : option Z :=
  let n := nat_of_ascii c in
  if ((48 <=? n) && (n <=? 57))%nat then Some (Z.of_nat (n - 48)) else None.

(** Reads [n] decimal digits from the front of [s]. *)
Fixpoint digits (n : nat) (acc : Z) (s : string) : option (Z * string) :=
  match n with
  | O => Some (acc, s)
  | S n' =>
      match s with
      | String c rest =>
          match digit c with
          | Some d => digits n' (10 * acc + d) rest
          | None => None
          end
      | EmptyString => None
      end
  end.

Definition expect (c : ascii) (s : string) : option string :=
  match s with
  | String c' rest => if Ascii.eqb c c' then Some rest else None
  | EmptyString => None
  end.

(** Days from 1970-01-01 to the given date of the proleptic Gregorian
    calendar. *)
Definition days_from_civil (y m d : Z) : Z :=
  let y' := if (m <=? 2)%Z then (y - 1)%Z else y in
  let era := (y' / 400)%Z in
  let yoe := (y' - era * 400)%Z in
  let mp := ((m + 9) mod 12)%Z in
  let doy := ((153 * mp + 2) / 5 + d - 1)%Z in
  let doe := (yoe * 365 + yoe / 4 - yoe / 100 + doy)%Z in
  (era * 146097 + doe - 719468)%Z.

Definition obind {A B} (o : option A) (k : A -> option B) : option B :=
  match o with
  | Some a => k a
  | None => None
  end.

(** Timestamps of the shape [YYYY-MM-DDTHH:MM:SS], alone or followed by
    [+00:00]; anything else is rejected. *)
Definition parse_iso (s : string) : option datetime :=
  obind (digits 4 0 s) (fun '(y, s) =>
  obind (expect "-" s) (fun s =>
  obind (digits 2 0 s) (fun '(mo, s) =>
  obind (expect "-" s) (fun s =>
  obind (digits 2 0 s) (fun '(d, s) =>
  obind (expect "T" s) (fun s =>
  obind (digits 2 0 s) (fun '(h, s) =>
  obind (expect ":" s) (fun s =>
  obind (digits 2 0 s) (fun '(mi, s) =>
  obind (expect ":" s) (fun s =>
  obind (digits 2 0 s) (fun '(sec, s) =>
    let us := ((days_from_civil y mo d * 86400 + h * 3600 + mi * 60 + sec)
               * 1000000)%Z in
    if String.eqb s "" then Some (Naive us)
    else if String.eqb s "+00:00" then Some (Aware us)
    else None))))))))))).

Definition band_style (p : Q) : string :=
  if Qltb p 50 then "cost.low"
  else if Qltb p 80 then "cost.medium" else "cost.high".

Definition filled_segments (width : nat) (p max_value : Q) : Z :=
  let bounded := py_max 0 (py_min p max_value) in
  py_int (inject_Z (Z.of_nat width) * bounded / max_value).

Definition styled (style : option string) (s : string) : string :=
  match style with
  | Some st => "[" ^^ st ^^ "]" ^^ s ^^ "[/]"
  | None => s
  end.

Definition bar (width : nat) (filled : Z) (filled_style empty_style : option string)
  : string :=
  styled filled_style (repeat_str "█" (Z.to_nat filled))
  ^^ styled empty_style (repeat_str "░" (width - Z.to_nat filled)).

Definition percent (value total : Q) : Q :=
  if Qeq_bool total 0 then 0 else py_round (value / total * 100) 1.

#[export] Instance collaborators : Collaborators := {|
  create_header := fun plan tz =>
    ["[header]CLAUDE CODE USAGE MONITOR[/]";
     "[ " ^^ plan ^^ " | " ^^ tz ^^ " ]"; ""];
  percentage := percent;
  DEFAULT_COST_LIMIT := 5;
  get_cost_style := band_style;
  _calculate_filled_segments := filled_segments;
  _render_bar := bar;
  token_progress_render := fun p =>
    "[" ^^ bar 50 (filled_segments 50 p 100) None None ^^ "] " ^^ fmt_f 0 1 p ^^ "%";
  time_progress_render := fun elapsed total =>
    "[" ^^ bar 50 (filled_segments 50 elapsed (py_max 1 total)) None None ^^ "]";
  model_usage_render := fun stats =>
    match stats with [] => "No model data" | _ => join ", " (map fst stats) end;
  get_velocity_emoji := fun rate => if Qltb rate 50 then "🐌" else "🚀";
  cost_indicator_render := fun cost => "$" ^^ fmt_f 0 2 cost;
  fromisoformat := parse_iso
|}.

(** 2026-01-01T00:00:00Z in microseconds since the epoch. *)
Definition new_year_2026 : Z := 1767225600000000%Z.

(** A session on the [pro] plan that has used 134% of its token limit. *)
Definition example_session : SessionDisplayData :=
  mkData "pro" "UTC" 26800 20000 134 0 90 300 (1234 # 10) (25 # 10) [] 120 []
         "12:00" "15:00" "10:30:00" false false false 0.

(** The same session on a plan that is not tiered. *)
Definition example_simple_session : SessionDisplayData :=
  mkData "team" "UTC" 26800 20000 134 0 90 300 (1234 # 10) (25 # 10) [] 120 []
         "12:00" "15:00" "10:30:00" false false false 0.

(** A snapshot whose five-hour window is a number instead of a dict. *)
Definition example_broken_windows : list (string * pyval) :=
  [ ("five_hour", PNum 5);
    ("seven_day", PDict [("utilization", PNum (3 # 2))]) ].

(** An official usage snapshot: the five-hour window at the fraction 1.0,
    resetting in 45 minutes, the seven-day window at 1.5. *)
Definition example_windows : list (string * pyval) :=
  [ ("five_hour", PDict [("utilization", PNum 1);
                         ("resets_at", PStr "2026-01-01T00:45:00Z")]);
    ("seven_day", PDict [("utilization", PNum (3 # 2))]) ].

(** The keyword arguments that carry the example's official usage data. *)
Definition example_official : Kwargs :=
  mkKwargs None None (Some (PDict example_windows)) None.

End Standin.

(* ================================================================== *)
(** * Properties of the calibration store                               *)
(* ================================================================== *)

Module CalibrationSpec.
Import Py Calibration.
Local Open Scope py_scope.

(** ** Slicing *)

Lemma slice_last_short {A} (n : nat) (l : list A) :
  (List.length l <= n)%nat -> slice_last n l = l.
Proof.
  intros H. unfold slice_last.
  replace (List.length l - n)%nat with 0%nat by lia. reflexivity.
Qed.

Lemma slice_last_length {A} (n : nat) (l : list A) :
  List.length (slice_last n l) = Nat.min n (List.length l).
Proof. unfold slice_last. rewrite length_skipn. lia. Qed.


Lemma slice_last_app_slice {A} (n : nat) (a b : list A) :
  slice_last n (slice_last n a ++ b) = slice_last n (a ++ b).
Proof.
  destruct (Nat.le_gt_cases (List.length a) n) as [Hle | Hgt].
  - now rewrite (slice_last_short n a Hle).
  - unfold slice_last at 1 3.
    rewrite !length_app, slice_last_length.
    replace (Nat.min n (List.length a)) with n by lia.
    unfold slice_last.
    set (k := (List.length a - n)%nat).
    replace (List.length a + List.length b - n)%nat
      with ((n + List.length b - n) + k)%nat by lia.
    rewrite <- skipn_skipn.
    replace (skipn k (a ++ b)) with (skipn k a ++ b); [reflexivity |].
    rewrite skipn_app. replace (k - List.length a)%nat with 0%nat by lia.
    reflexivity.
Qed.

(** ** One call of [add_sample] *)

Lemma add_sample_run now est act io s :
  exists s',
    add_sample now est act io s = (Ok tt, s') /\
    _samples s' = slice_last MAX_SAMPLES (_samples s ++ [new_sample now est act]) /\
    warnings s' = warnings s ++ save_warning io /\
    file s' = match io with
              | NoFault => Some (Json (PList (_samples s')))
              | _ => file s
              end.
Proof.
  destruct io; eexists; (split; [reflexivity |]); cbn;
    rewrite ?app_nil_r; auto.
Qed.

Lemma add_samples_cons c calls s :
  add_samples (c :: calls) s =
  add_samples calls
    (snd (add_sample (fst (fst (fst c))) (snd (fst (fst c))) (snd (fst c))
                     (snd c) s)).
Proof.
  destruct c as [[[now est] act] io]. cbn [add_samples fst snd].
  destruct (add_sample_run now est act io s) as (s' & Hrun & _).
  unfold bind. rewrite Hrun. reflexivity.
Qed.

Lemma sample_of_eq c :
  sample_of c = new_sample (fst (fst (fst c))) (snd (fst (fst c))) (snd (fst c)).
Proof. now destruct c as [[[now est] act] io]. Qed.

Lemma fault_of_eq c : fault_of c = snd c.
Proof. now destruct c as [[[now est] act] io]. Qed.

Lemma add_samples_run calls : forall s,
  exists s',
    add_samples calls s = (Ok tt, s') /\
    _samples s' = match calls with
                  | [] => _samples s
                  | _ => slice_last MAX_SAMPLES (_samples s ++ map sample_of calls)
                  end.
Proof.
  induction calls as [| c calls IH]; intros s.
  - exists s. split; reflexivity.
  - rewrite add_samples_cons.
    destruct c as [[[now est] act] io]. cbn [fst snd].
    destruct (add_sample_run now est act io s) as (s1 & Hrun & Hmem & _).
    rewrite Hrun. cbn [snd].
    destruct (IH s1) as (s' & Hrest & Hmem').
    exists s'. split; [exact Hrest |].
    rewrite Hmem'. destruct calls as [| c' calls'].
    + exact Hmem.
    + rewrite Hmem, slice_last_app_slice, <- app_assoc. reflexivity.
Qed.

Lemma add_samples_last_saved calls : forall s c,
  fault_of c = NoFault ->
  let s' := snd (add_samples (calls ++ [c]) s) in
  file s' = Some (Json (PList (_samples s'))).
Proof.
  induction calls as [| c0 calls IH]; intros s c Hio; cbn zeta.
  - cbn [app]. rewrite add_samples_cons. cbn [add_samples ret snd].
    rewrite fault_of_eq in Hio.
    destruct (add_sample_run (fst (fst (fst c))) (snd (fst (fst c)))
                (snd (fst c)) (snd c) s) as (s1 & Hrun & _ & _ & Hfile).
    rewrite Hrun. cbn [snd]. rewrite Hio in Hfile. exact Hfile.
  - cbn [app]. rewrite add_samples_cons. apply IH, Hio.
Qed.

Lemma slice_last_snoc {A} (n : nat) (l : list A) (x : A) :
  slice_last (S n) (l ++ [x]) = slice_last n l ++ [x].
Proof.
  unfold slice_last. rewrite length_app, skipn_app. cbn [List.length].
  replace (List.length l + 1 - S n)%nat with (List.length l - n)%nat by lia.
  replace (List.length l - n - List.length l)%nat with 0%nat by lia.
  reflexivity.
Qed.

(** ** What a query sees *)

Lemma load_run s : _load s = (Ok tt, reloaded s).
Proof.
  destruct s as [mem [[why | data] |] tmp log]; cbn.
  - reflexivity.
  - unfold reloaded, history_seen, load_warning; cbn.
    rewrite app_nil_r. now destruct data.
  - reflexivity.
Qed.

Lemma reloaded_samples s : _samples (reloaded s) = history_seen s.
Proof. unfold reloaded, history_seen. now destruct (file s). Qed.

Lemma get_multiplier_run s :
  get_multiplier s = (mean_ratio (history_seen s), reloaded s).
Proof.
  unfold get_multiplier, bind. rewrite load_run. cbn.
  now rewrite reloaded_samples.
Qed.

Lemma load_under_run dir s :
  _load_under dir s
  = match dir with
    | Denied why => (Raise (PermissionError why), s)
    | Answers => (Ok tt, reloaded s)
    end.
Proof. destruct dir; [apply load_run | reflexivity]. Qed.

Lemma get_multiplier_under_run dir s :
  get_multiplier_under dir s
  = match dir with
    | Denied why => (Raise (PermissionError why), s)
    | Answers => (mean_ratio (history_seen s), reloaded s)
    end.
Proof.
  unfold get_multiplier_under, bind. rewrite load_under_run.
  destruct dir; [| reflexivity]. cbn. now rewrite reloaded_samples.
Qed.

(** ** Histories made of well-formed samples *)

Lemma Qltb_lt a b : Qltb a b = true <-> (a < b)%Q.
Proof.
  unfold Qltb. destruct (Qlt_le_dec a b) as [H | H]; split; intro H';
    try reflexivity; try assumption; try discriminate.
  exfalso. exact (Qlt_not_le _ _ H' H).
Qed.

Lemma Qltb_ge a b : Qltb a b = false <-> (b <= a)%Q.
Proof.
  unfold Qltb. destruct (Qlt_le_dec a b) as [H | H]; split; intro H';
    try reflexivity; try assumption; try discriminate.
  exfalso. exact (Qlt_not_le _ _ H H').
Qed.

Lemma Qleb_le a b : Qleb a b = true <-> (a <= b)%Q.
Proof.
  unfold Qleb. destruct (Qlt_le_dec b a) as [H | H]; split; intro H';
    try reflexivity; try assumption; try discriminate.
  exfalso. exact (Qlt_not_le _ _ H H').
Qed.

Lemma Qleb_gt a b : Qleb a b = false <-> (b < a)%Q.
Proof.
  unfold Qleb. destruct (Qlt_le_dec b a) as [H | H]; split; intro H';
    try reflexivity; try assumption; try discriminate.
  exfalso. exact (Qlt_not_le _ _ H' H).
Qed.

Lemma positive_not_zero q : Qltb 0 q = true -> Qeq_bool q 0 = false.
Proof.
  intros H. apply Qltb_lt in H.
  destruct (Qeq_bool q 0) eqn:E; [| reflexivity].
  apply Qeq_bool_eq in E. rewrite E in H. now apply Qlt_irrefl in H.
Qed.

Lemma collect_ratios_stored h : forall acc,
  collect_ratios (map stored h) acc = Ok (acc ++ map ratio (qualifying h)).
Proof.
  induction h as [| x h IH]; intros acc; cbn [map collect_ratios qualifying filter].
  - now rewrite app_nil_r.
  - unfold stored at 1, sample_dict. cbn -[Qltb Qeq_bool Qdiv].
    destruct (Qltb 0 (estimated_pct x)) eqn:Hpos.
    + rewrite (positive_not_zero _ Hpos). cbn [rbind map].
      rewrite IH, <- app_assoc. reflexivity.
    + apply IH.
Qed.

Lemma py_sum_from acc l : (fold_left Qplus l acc == acc + Qsum l)%Q.
Proof.
  revert acc. induction l as [| x l IH]; intros acc; cbn [fold_left Qsum].
  - now rewrite Qplus_0_r.
  - rewrite IH. now rewrite Qplus_assoc.
Qed.

Lemma py_sum_Qsum l : (py_sum l == Qsum l)%Q.
Proof. unfold py_sum. rewrite py_sum_from. apply Qplus_0_l. Qed.

Lemma mean_ratio_stored h :
  exists m, mean_ratio (map stored h) = Ok m /\
            (m == spec_multiplier h)%Q /\
            (qualifying h = [] -> m = 1%Q).
Proof.
  unfold mean_ratio, spec_multiplier.
  destruct h as [| x h].
  - exists 1%Q. cbn. repeat split; reflexivity.
  - change (map stored (x :: h)) with (stored x :: map stored h) at 1.
    cbv iota beta. change (stored x :: map stored h) with (map stored (x :: h)).
    rewrite collect_ratios_stored. cbn [app rbind].
    destruct (qualifying (x :: h)) as [| y qs].
    + exists 1%Q. repeat split; reflexivity.
    + exists (py_sum (map ratio (y :: qs)) /
              inject_Z (Z.of_nat (List.length (map ratio (y :: qs)))))%Q.
      split; [reflexivity |]. split; [| discriminate].
      rewrite py_sum_Qsum, length_map. reflexivity.
Qed.

(** Round trip: a store constructed anew over the directory of a store whose
    last save met no fault starts from the same history. *)
Lemma reopen_reproduces_history calls s0 c :
  fault_of c = NoFault ->
  let s := snd (add_samples (calls ++ [c]) s0) in
  exists s', __init__ s = (Ok tt, s') /\ _samples s' = _samples s.
Proof.
  intros Hio. cbv zeta.
  pose proof (add_samples_last_saved calls s0 c Hio) as Hfile. cbv zeta in Hfile.
  set (s := snd (add_samples (calls ++ [c]) s0)) in *.
  unfold __init__, bind, set_samples, modify. rewrite load_run.
  eexists. split; [reflexivity |].
  rewrite reloaded_samples. unfold history_seen. cbn [file].
  now rewrite Hfile.
Qed.

(** ** The claims about the store *)





(** C2. When the history the query sees consists of well-formed samples,
    [get_multiplier] returns the arithmetic mean of [actual / estimated] over
    exactly the samples with a strictly positive estimate, and exactly [1]
    when no sample qualifies (in particular on an empty history). *)
Theorem get_multiplier_mean (s : State) (h : list sample) :
  history_seen s = map stored h ->
  exists m,
    fst (get_multiplier s) = Ok m /\
    (m == spec_multiplier h)%Q /\
    (qualifying h = [] -> m = 1%Q) /\
    (h = [] -> m = 1%Q).
Proof.
  intros Hseen. rewrite get_multiplier_run, Hseen. cbn [fst].
  destruct (mean_ratio_stored h) as (m & Hm & Hspec & Hnone).
  exists m. repeat split; try assumption.
  intros ->. now apply Hnone.
Qed.

(** The example of the specification: estimates 0 and 10 against actual
    values 5 and 12 give 1.2, only the second sample counting. *)
Lemma get_multiplier_mean_witness :
  let h := [mkSample "2026-01-01T00:00:00+00:00" 0 5;
            mkSample "2026-01-02T00:00:00+00:00" 10 12] in
  let s := mkState [] (Some (Json (PList (map stored h)))) None [] in
  history_seen s = map stored h /\
  exists m, fst (get_multiplier s) = Ok m /\ (m == 12 # 10)%Q.
Proof.
  cbv zeta. split; [reflexivity |].
  destruct (get_multiplier_mean
              (mkState [] (Some (Json (PList (map stored
                 [mkSample "2026-01-01T00:00:00+00:00" 0 5;
                  mkSample "2026-01-02T00:00:00+00:00" 10 12])))) None [])
              [mkSample "2026-01-01T00:00:00+00:00" 0 5;
               mkSample "2026-01-02T00:00:00+00:00" 10 12] eq_refl)
    as (m & Hm & Hspec & _).
  exists m. split; [exact Hm |].
  rewrite Hspec. vm_compute. reflexivity.
Defined.



(** A file that parses to a list is taken as it is: an entry that is not a
    dict makes the query raise. *)
Example get_multiplier_entry_not_a_dict :
  fst (get_multiplier (mkState [] (Some (Json (PList [PNum 1]))) None []))
  = Raise (AttributeError "object has no attribute 'get'").
Proof. reflexivity. Qed.

End CalibrationSpec.

(* ================================================================== *)
(** * Properties of the session display                                 *)
(* ================================================================== *)

Module SessionDisplaySpec.
Import Py SessionDisplay.
Import CalibrationSpec.
Local Open Scope py_scope.

(** ** Computations that only append to the screen buffer *)

Lemma pushed_nil s : pushed s [] = s.
Proof. destruct s. unfold pushed. cbn. now rewrite app_nil_r. Qed.

Lemma pushed_pushed s l1 l2 : pushed (pushed s l1) l2 = pushed s (l1 ++ l2).
Proof. unfold pushed. cbn. now rewrite app_assoc. Qed.

Lemma writes_ret : writes (ret tt) [].
Proof. intros s. unfold ret. now rewrite pushed_nil. Qed.

Lemma writes_append line : writes (append line) [line].
Proof. intros s. reflexivity. Qed.

Lemma writes_extend lines : writes (extend lines) lines.
Proof. intros s. reflexivity. Qed.

Lemma writes_seq m1 m2 l1 l2 :
  writes m1 l1 -> writes m2 l2 -> writes (m1 ;;; m2) (l1 ++ l2).
Proof.
  intros H1 H2 s. unfold bind. rewrite H1, H2. now rewrite pushed_pushed.
Qed.

Lemma bind_writes {A} m l (k : M Screen A) s :
  writes m l -> (m ;;; k) s = k (pushed s l).
Proof. intros H. unfold bind. now rewrite H. Qed.

Lemma writes_eq m l l' : writes m l -> l = l' -> writes m l'.
Proof. now intros H <-. Qed.

(** ** Notifications *)

Lemma add_notifications_writes switch exceed run_out original_limit token_limit :
  writes (_add_notifications switch exceed run_out original_limit token_limit)
         (match notification_lines switch exceed run_out
                                   original_limit token_limit with
          | [] => []
          | notes => notes ++ [""]
          end).
Proof.
  intros s. unfold _add_notifications, notification_lines.
  destruct switch, (original_limit <? token_limit)%Z, exceed, run_out;
    cbv [andb bind ret append modify pushed fst snd];
    cbn [screen_buffer clock ticks app];
    rewrite <- ?app_assoc, ?app_nil_r; cbn [app]; try reflexivity.
  all: now destruct s.
Qed.

Lemma notification_lines_not_blank switch exceed run_out original_limit token_limit :
  ~ In "" (notification_lines switch exceed run_out original_limit token_limit).
Proof.
  unfold notification_lines. intros H.
  repeat (apply in_app_or in H; destruct H as [H | H]);
    repeat match type of H with
           | In _ (if ?b then _ else _) => destruct b
           end;
    cbn [In] in H; repeat destruct H as [H | H]; try contradiction;
    discriminate H.
Qed.

(** C6, as the claim words it, fails: with the switch flag set and a token
    limit that does not exceed the original one, nothing is appended although
    one of the three flags is true. *)
Lemma add_notifications_flag_without_line_counterexample :
  (true || false || false = true) /\
  _add_notifications true false false 200000 200000 (start 0)
  = (Ok tt, start 0).
Proof. split; reflexivity. Qed.

(** C6, amended. The notifications block returns normally and appends the
    notification lines that fire followed by one blank line, and appends
    nothing when none fires; the first notification fires only when the switch
    flag is set and the token limit exceeds the original limit, the other two
    whenever their flag is set.  In particular nothing is appended when all
    three flags are false. *)
Theorem add_notifications_trailing_blank
    (switch exceed run_out : bool) (original_limit token_limit : Z) (s : Screen) :
  let fired := (switch && (original_limit <? token_limit)%Z) || exceed || run_out in
  let notes := notification_lines switch exceed run_out original_limit token_limit in
  _add_notifications switch exceed run_out original_limit token_limit s
  = (Ok tt, pushed s (if fired then notes ++ [""] else [])) /\
  (fired = true <-> notes <> []) /\
  ~ In "" notes /\
  (switch || exceed || run_out = false -> fired = false).
Proof.
  cbv zeta. split; [| split; [| split]].
  - rewrite add_notifications_writes. unfold notification_lines.
    destruct switch, (original_limit <? token_limit)%Z, exceed, run_out;
      reflexivity.
  - unfold notification_lines.
    destruct switch, (original_limit <? token_limit)%Z, exceed, run_out;
      cbn [andb orb app]; split; intros H; try reflexivity;
      try discriminate; try (exfalso; now apply H).
  - apply notification_lines_not_blank.
  - destruct switch, exceed, run_out; cbn; intros H;
      try discriminate H; reflexivity.
Qed.

(** ** Reset-time formatting *)

Lemma reset_text_units (d h m sec : Z) :
  (0 <= d)%Z -> (0 <= h < 24)%Z -> (0 <= m < 60)%Z -> (0 <= sec < 60)%Z ->
  (0 < d * 86400 + h * 3600 + m * 60 + sec)%Z ->
  reset_text (d * 86400 + h * 3600 + m * 60 + sec)
  = "in " ^^ join " " (unit_parts d h m).
Proof.
  intros Hd Hh Hm Hs Hpos. unfold reset_text, unit_parts.
  set (total := (d * 86400 + h * 3600 + m * 60 + sec)%Z) in *.
  assert (Ed : (total / 86400 = d)%Z).
  { symmetry. apply (Z.div_unique total 86400 d (h * 3600 + m * 60 + sec)); lia. }
  assert (Eh : ((total mod 86400) / 3600 = h)%Z).
  { replace (total mod 86400)%Z with (h * 3600 + m * 60 + sec)%Z.
    - symmetry. apply (Z.div_unique _ 3600 h (m * 60 + sec)); lia.
    - apply (Z.mod_unique total 86400 d); lia. }
  assert (Em : ((total mod 3600) / 60 = m)%Z).
  { replace (total mod 3600)%Z with (m * 60 + sec)%Z.
    - symmetry. apply (Z.div_unique _ 60 m sec); lia.
    - apply (Z.mod_unique total 3600 (d * 24 + h)); lia. }
  rewrite Ed, Eh, Em.
  replace (total =? 0)%Z with false by (symmetry; apply Z.eqb_neq; lia).
  assert (Zd : (d =? 0)%Z = negb (0 <? d)%Z).
  { destruct (Z.ltb_spec 0 d), (Z.eqb_spec d 0); try reflexivity; lia. }
  assert (Zh : (h =? 0)%Z = negb (0 <? h)%Z).
  { destruct (Z.ltb_spec 0 h), (Z.eqb_spec h 0); try reflexivity; lia. }
  rewrite Zd, Zh.
  destruct (0 <? d)%Z, (0 <? h)%Z, (0 <? m)%Z; reflexivity.
Qed.

Lemma whole_seconds (delta total : Z) :
  (0 <= total)%Z ->
  (1000000 * total <= delta < 1000000 * (total + 1))%Z ->
  Z.max 0 (Z.quot delta 1000000) = total.
Proof.
  intros Hpos Hrange.
  rewrite Z.quot_div_nonneg by lia.
  rewrite <- (Z.div_unique delta 1000000 total (delta - 1000000 * total)) by lia.
  lia.
Qed.

Lemma passed_or_under_a_second (delta : Z) :
  (delta < 1000000)%Z -> Z.max 0 (Z.quot delta 1000000) = 0%Z.
Proof.
  intros H. destruct (Z.le_gt_cases 0 delta) as [Hnn | Hneg].
  - rewrite Z.quot_small by lia. reflexivity.
  - pose proof (Z.quot_opp_l (- delta) 1000000 ltac:(lia)) as Hq.
    rewrite Z.opp_involutive in Hq.
    pose proof (Z.quot_pos (- delta) 1000000 ltac:(lia) ltac:(lia)). lia.
Qed.

Section WithCollaborators.
Context {ext : Collaborators}.

Lemma format_reset_time_run (resets_at : pyval) (s : Screen) :
  _format_reset_time resets_at s =
  match resets_at with
  | PStr iso =>
      match fromisoformat (replace_Z iso) with
      | Some (Aware t) =>
          (Ok (reset_text (Z.max 0 (Z.quot (t - clock s (ticks s)) 1000000))),
           mkScreen (screen_buffer s) (clock s) (S (ticks s)))
      | Some (Naive _) =>
          (Ok "", mkScreen (screen_buffer s) (clock s) (S (ticks s)))
      | None => (Ok "", s)
      end
  | _ => (Ok "", s)
  end.
Proof.
  unfold _format_reset_time, try_except, bind, lift, ret, datetime_now.
  destruct resets_at; try reflexivity.
  destruct (fromisoformat (replace_Z s0)) as [[t | t] |]; reflexivity.
Qed.

Lemma format_reset_time_buffer (resets_at : pyval) (s : Screen) :
  exists text s',
    _format_reset_time resets_at s = (Ok text, s') /\
    screen_buffer s' = screen_buffer s.
Proof.
  rewrite format_reset_time_run.
  destruct resets_at as [| b | q | iso | l | dict];
    try (exists "", s; split; reflexivity).
  destruct (fromisoformat (replace_Z iso)) as [[t | t] |];
    eexists _, _; split; reflexivity.
Qed.

(** C5, amended. The reset-time formatter never raises and leaves the screen
    buffer alone.  For a timestamp that parses to an instant with an offset:
    when the instant has passed or lies less than one second ahead the text is
    ["now"]; otherwise, with the whole seconds ahead split into [d] days, [h]
    hours, [m] minutes and [sec] seconds, the text is ["in "] followed by the
    non-zero units among days, hours and minutes, separated by spaces, the
    minutes being shown also when days and hours are both zero.  Anything
    else (not a string, unparsable, or without an offset) gives the empty
    text.  So 0 seconds gives ["now"], 25 hours ["in 1d 1h"] and 45 minutes
    ["in 45m"]. *)
Theorem format_reset_time_text (resets_at : pyval) (s : Screen) :
  exists text s',
    _format_reset_time resets_at s = (Ok text, s') /\
    screen_buffer s' = screen_buffer s /\
    match resets_at with
    | PStr iso =>
        match fromisoformat (replace_Z iso) with
        | Some (Aware t) =>
            let delta := (t - clock s (ticks s))%Z in
            ((delta < 1000000)%Z -> text = "now") /\
            (forall d h m sec : Z,
               (0 <= d)%Z -> (0 <= h < 24)%Z -> (0 <= m < 60)%Z ->
               (0 <= sec < 60)%Z ->
               let total := (d * 86400 + h * 3600 + m * 60 + sec)%Z in
               (0 < total)%Z ->
               (1000000 * total <= delta < 1000000 * (total + 1))%Z ->
               text = "in " ^^ join " " (unit_parts d h m))
        | _ => text = ""
        end
    | _ => text = ""
    end /\
    reset_text 0 = "now" /\
    reset_text (25 * 3600) = "in 1d 1h" /\
    reset_text (45 * 60) = "in 45m".
Proof.
  rewrite format_reset_time_run.
  destruct resets_at as [| b | q | iso | l | dict];
    try (exists "", s; repeat split; reflexivity).
  destruct (fromisoformat (replace_Z iso)) as [[t | t] |].
  - eexists _, _. split; [reflexivity |]. split; [reflexivity |].
    split; [| repeat split; reflexivity].
    cbv zeta. split.
    + intros Hsmall. now rewrite passed_or_under_a_second.
    + intros d h m sec Hd Hh Hm Hs Hpos Hrange.
      rewrite (whole_seconds _ (d * 86400 + h * 3600 + m * 60 + sec))
        by (assumption || lia).
      now apply reset_text_units.
  - eexists _, _. repeat split; reflexivity.
  - exists "", s. repeat split; reflexivity.
Qed.

(** ** The composition of the active-session screen *)

Lemma in_tiered_plans plan :
  In plan tiered_plans <-> is_tiered plan = true.
Proof.
  unfold is_tiered. rewrite existsb_exists. split.
  - intros H. exists plan. split; [exact H | apply String.eqb_refl].
  - intros (x & Hin & Heq). apply String.eqb_eq in Heq. now subst.
Qed.

Lemma writes_if (b : bool) m1 m2 l1 l2 :
  writes m1 l1 -> writes m2 l2 ->
  writes (if b then m1 else m2) (if b then l1 else l2).
Proof. now destruct b. Qed.

Lemma breakdown_writes d kw :
  exists lines,
    writes (render_breakdown d kw) lines /\
    In (token_line (usage_percentage d) (tokens_used d) (token_limit d)) lines.
Proof.
  unfold render_breakdown. cbv zeta.
  destruct (per_model_stats d);
    (eexists; split;
     [ repeat first [ apply writes_append | eapply writes_if | eapply writes_seq ]
     | rewrite !in_app_iff; cbn [In]; intuition ]).
Qed.

Lemma footer_writes d : exists lines, writes (render_footer d) lines.
Proof.
  unfold render_footer. eexists.
  repeat (eapply writes_seq; [apply writes_append |]).
  eapply writes_seq; [apply add_notifications_writes |].
  apply writes_append.
Qed.

Lemma tiered_screen d kw :
  In (plan d) tiered_plans ->
  exists closing,
    In (token_line (usage_percentage d) (tokens_used d) (token_limit d)) closing /\
    forall s,
      format_active_session_screen d kw s =
      match render_usage_block d kw (with_header d s) with
      | (Ok _, s1) => (Ok (screen_buffer s1 ++ closing), pushed s1 closing)
      | (Raise e, s1) => (Raise e, s1)
      end.
Proof.
  intros Hplan. apply in_tiered_plans in Hplan.
  destruct (breakdown_writes d kw) as (body & Hb & Hin).
  destruct (footer_writes d) as (foot & Hf).
  exists (body ++ foot).
  split.
  - apply in_or_app. now left.
  - intros s. unfold format_active_session_screen. rewrite Hplan.
    cbv [bind modify extend render_tiered].
    cbn [screen_buffer clock ticks app]. fold (with_header d s).
    destruct (render_usage_block d kw (with_header d s)) as [[[] | e] s1];
      [| reflexivity].
    rewrite Hb, Hf. unfold get, ret.
    rewrite pushed_pushed. reflexivity.
Qed.

Lemma usage_block_predicted d kw :
  truthy (api_usage_of kw) = false ->
  writes (render_usage_block d kw)
         [""; predicted_line
                (snd (predicted_usage
                        (cost_percentage_of (session_cost d) (cost_limit_of kw))
                        (usage_percentage d)
                        (messages_percentage_of (sent_messages d)
                                                (messages_limit_of kw))
                        (multiplier_of kw)))
                (fst (predicted_usage
                        (cost_percentage_of (session_cost d) (cost_limit_of kw))
                        (usage_percentage d)
                        (messages_percentage_of (sent_messages d)
                                                (messages_limit_of kw))
                        (multiplier_of kw)))].
Proof.
  intros Hapi. unfold render_usage_block. cbv zeta. rewrite Hapi.
  destruct (predicted_usage _ _ _ _) as [p lbl]. cbn [fst snd].
  apply (writes_seq _ _ [""] [predicted_line lbl p]); apply writes_append.
Qed.

Lemma predicted_screen d kw s :
  In (plan d) tiered_plans ->
  truthy (api_usage_of kw) = false ->
  exists rest,
    fst (format_active_session_screen d kw s)
    = Ok (create_header (plan d) (timezone d)
          ++ "" :: predicted_line
                (snd (predicted_usage
                        (cost_percentage_of (session_cost d) (cost_limit_of kw))
                        (usage_percentage d)
                        (messages_percentage_of (sent_messages d)
                                                (messages_limit_of kw))
                        (multiplier_of kw)))
                (fst (predicted_usage
                        (cost_percentage_of (session_cost d) (cost_limit_of kw))
                        (usage_percentage d)
                        (messages_percentage_of (sent_messages d)
                                                (messages_limit_of kw))
                        (multiplier_of kw)))
             :: rest).
Proof.
  intros Hplan Hapi.
  destruct (tiered_screen d kw Hplan) as (closing & _ & Hrun).
  exists closing. rewrite Hrun, (usage_block_predicted d kw Hapi).
  cbn [fst pushed with_header screen_buffer]. rewrite <- app_assoc. reflexivity.
Qed.

(** ** The predicted-usage bar *)

Lemma py_min_Qmin a b : (py_min a b == Qmin a b)%Q.
Proof.
  unfold py_min. destruct (Qltb b a) eqn:E.
  - apply Qltb_lt in E. symmetry. apply Q.min_r. now apply Qlt_le_weak.
  - apply Qltb_ge in E. symmetry. now apply Q.min_l.
Qed.

Lemma py_max_Qmax a b : (py_max a b == Qmax a b)%Q.
Proof.
  unfold py_max. destruct (Qltb a b) eqn:E.
  - apply Qltb_lt in E. symmetry. apply Q.max_r. now apply Qlt_le_weak.
  - apply Qltb_ge in E. symmetry. now apply Q.max_l.
Qed.

Lemma py_max3_Qmax a b c : (py_max3 a b c == Qmax (Qmax a b) c)%Q.
Proof.
  unfold py_max3. rewrite py_max_Qmax.
  apply Q.max_compat; [apply py_max_Qmax | reflexivity].
Qed.

Lemma py_min_100_le x : (py_min 100 x <= 100)%Q.
Proof.
  unfold py_min. destruct (Qltb x 100) eqn:E.
  - apply Qltb_lt in E. now apply Qlt_le_weak.
  - apply Qle_refl.
Qed.

Lemma cost_percentage_le_100 cost limit :
  (cost_percentage_of cost limit <= 100)%Q.
Proof.
  unfold cost_percentage_of. destruct (Qltb 0 limit).
  - apply py_min_100_le.
  - discriminate.
Qed.

Lemma messages_percentage_le_100 sent limit :
  (messages_percentage_of sent limit <= 100)%Q.
Proof.
  unfold messages_percentage_of. destruct (0 <? limit)%Z.
  - apply py_min_100_le.
  - discriminate.
Qed.

Lemma py_max3_over_100 c t g :
  (c <= 100)%Q -> (g <= 100)%Q -> (100 < py_max3 c t g)%Q -> py_max3 c t g = t.
Proof.
  unfold py_max3, py_max. intros Hc Hg.
  destruct (Qltb c t) eqn:E1.
  - destruct (Qltb t g) eqn:E2; [| reflexivity].
    intros H. exfalso. exact (Qlt_not_le _ _ H Hg).
  - destruct (Qltb c g) eqn:E2; intros H; exfalso.
    + exact (Qlt_not_le _ _ H Hg).
    + exact (Qlt_not_le _ _ H Hc).
Qed.

Lemma cost_percentage_tie cost limit :
  ((0 < limit)%Q ->
   (cost_percentage_of cost limit == Qmin 100 (percentage cost limit))%Q) /\
  ((limit <= 0)%Q -> cost_percentage_of cost limit = 0%Q).
Proof.
  unfold cost_percentage_of. split; intros H.
  - apply Qltb_lt in H. rewrite H. apply py_min_Qmin.
  - apply Qltb_ge in H. now rewrite H.
Qed.

Lemma messages_percentage_tie sent limit :
  ((0 < limit)%Z ->
   (messages_percentage_of sent limit
    == Qmin 100 (percentage (inject_Z sent) (inject_Z limit)))%Q) /\
  ((limit <= 0)%Z -> messages_percentage_of sent limit = 0%Q).
Proof.
  unfold messages_percentage_of. split; intros H.
  - apply Z.ltb_lt in H. rewrite H. apply py_min_Qmin.
  - apply Z.ltb_ge in H. now rewrite H.
Qed.

(** C3. On a tiered plan without official usage data and with a calibration
    multiplier of 1.5, the line after the header's blank line is the
    predicted-usage line labelled ["Cal. Claude Usage"], its bar drawn and its
    number printed for [min(100, max(cost%, token%, msg%) * 1.5)], where the
    cost and message percentages are [min(100, percentage(used, limit))]
    against the limits passed in (the default cost limit and 1500 messages
    when none is passed), and 0 when the limit is not positive. *)
Theorem calibrated_prediction
    (d : SessionDisplayData) (kw : Kwargs) (m : Q) (s : Screen) :
  In (plan d) tiered_plans ->
  truthy (match api_usage kw with Some a => a | None => PNone end) = false ->
  calibration_multiplier kw = Some m ->
  (m == 3 # 2)%Q ->
  let cost_limit :=
    match cost_limit_p90 kw with Some c => c | None => DEFAULT_COST_LIMIT end in
  let messages_limit :=
    match messages_limit_p90 kw with Some n => n | None => 1500%Z end in
  exists cost msg shown rest,
    ((0 < cost_limit)%Q ->
     (cost == Qmin 100 (percentage (session_cost d) cost_limit))%Q) /\
    ((cost_limit <= 0)%Q -> cost = 0%Q) /\
    ((0 < messages_limit)%Z ->
     (msg == Qmin 100 (percentage (inject_Z (sent_messages d))
                                  (inject_Z messages_limit)))%Q) /\
    ((messages_limit <= 0)%Z -> msg = 0%Q) /\
    (shown == Qmin 100 (Qmax (Qmax cost (usage_percentage d)) msg * (3 # 2)))%Q /\
    fst (format_active_session_screen d kw s)
    = Ok (create_header (plan d) (timezone d)
          ++ ""
          :: ("⚡ [value]Cal. Claude Usage:[/]   "
              ^^ _render_wide_progress_bar shown ^^ " " ^^ fmt_f 4 1 shown
              ^^ "%    [dim](max of cost/tokens/messages)[/dim]")
          :: rest).
Proof.
  intros Hplan Hapi Hkw Hm. cbv zeta.
  destruct (predicted_screen d kw s Hplan Hapi) as (rest & Hrun).
  destruct (cost_percentage_tie (session_cost d) (cost_limit_of kw))
    as [Hcost Hcost0].
  destruct (messages_percentage_tie (sent_messages d) (messages_limit_of kw))
    as [Hmsg Hmsg0].
  exists (cost_percentage_of (session_cost d) (cost_limit_of kw)),
         (messages_percentage_of (sent_messages d) (messages_limit_of kw)),
         (py_min 100
            (py_max3 (cost_percentage_of (session_cost d) (cost_limit_of kw))
                     (usage_percentage d)
                     (messages_percentage_of (sent_messages d)
                                             (messages_limit_of kw)) * m)),
         rest.
  refine (conj Hcost (conj Hcost0 (conj Hmsg (conj Hmsg0 (conj _ _))))).
  - rewrite py_min_Qmin, py_max3_Qmax, Hm. reflexivity.
  - rewrite Hrun. unfold multiplier_of, predicted_usage.
    rewrite Hkw.
    replace (Qeq_bool m 1) with false; [reflexivity |].
    symmetry. apply not_true_iff_false. intros E.
    apply Qeq_bool_eq in E. rewrite Hm in E. discriminate E.
Qed.

(** C9. On a tiered plan without official usage data the line after the
    header's blank line is the predicted-usage line.  The scaling, the cap at
    100 and the ["Cal. Claude Usage"] label are applied exactly when the
    multiplier differs from 1; with a multiplier of 1 (also when none is
    supplied) the label is ["Est. Claude Usage"] and the value drawn and
    printed is [max(cost%, token%, msg%)] as it is.  The cost and message
    percentages are [min(100, percentage(used, limit))], hence at most 100,
    and 0 when their limit is not positive, so a value above 100 is the token
    percentage. *)
Theorem prediction_scaling_gate
    (d : SessionDisplayData) (kw : Kwargs) (s : Screen) :
  In (plan d) tiered_plans ->
  truthy (match api_usage kw with Some a => a | None => PNone end) = false ->
  let cost_limit :=
    match cost_limit_p90 kw with Some c => c | None => DEFAULT_COST_LIMIT end in
  let messages_limit :=
    match messages_limit_p90 kw with Some n => n | None => 1500%Z end in
  let m := match calibration_multiplier kw with Some x => x | None => 1%Q end in
  exists cost msg label shown rest,
    fst (format_active_session_screen d kw s)
    = Ok (create_header (plan d) (timezone d)
          ++ ""
          :: ("⚡ [value]" ^^ label ^^ ":[/]   "
              ^^ _render_wide_progress_bar shown ^^ " " ^^ fmt_f 4 1 shown
              ^^ "%    [dim](max of cost/tokens/messages)[/dim]")
          :: rest) /\
    ((0 < cost_limit)%Q ->
     (cost == Qmin 100 (percentage (session_cost d) cost_limit))%Q) /\
    ((cost_limit <= 0)%Q -> cost = 0%Q) /\
    ((0 < messages_limit)%Z ->
     (msg == Qmin 100 (percentage (inject_Z (sent_messages d))
                                  (inject_Z messages_limit)))%Q) /\
    ((messages_limit <= 0)%Z -> msg = 0%Q) /\
    (cost <= 100)%Q /\ (msg <= 100)%Q /\
    (~ (m == 1)%Q ->
       label = "Cal. Claude Usage" /\
       (shown == Qmin 100 (Qmax (Qmax cost (usage_percentage d)) msg * m))%Q /\
       (shown <= 100)%Q) /\
    ((m == 1)%Q ->
       label = "Est. Claude Usage" /\
       (shown == Qmax (Qmax cost (usage_percentage d)) msg)%Q /\
       ((100 < shown)%Q -> shown = usage_percentage d)).
Proof.
  intros Hplan Hapi. cbv zeta.
  destruct (predicted_screen d kw s Hplan Hapi) as (rest & Hrun).
  destruct (cost_percentage_tie (session_cost d) (cost_limit_of kw))
    as [Hcost Hcost0].
  destruct (messages_percentage_tie (sent_messages d) (messages_limit_of kw))
    as [Hmsg Hmsg0].
  exists (cost_percentage_of (session_cost d) (cost_limit_of kw)),
         (messages_percentage_of (sent_messages d) (messages_limit_of kw)).
  eexists _, _, rest. split; [exact Hrun |].
  refine (conj Hcost (conj Hcost0 (conj Hmsg (conj Hmsg0
           (conj (cost_percentage_le_100 _ _)
              (conj (messages_percentage_le_100 _ _) (conj _ _))))))).
  - intros Hne. unfold predicted_usage.
    replace (Qeq_bool (multiplier_of kw) 1) with false.
    + cbn [negb fst snd]. split; [reflexivity |]. split.
      * rewrite py_min_Qmin, py_max3_Qmax. reflexivity.
      * apply py_min_100_le.
    + symmetry. apply not_true_iff_false. intros E. now apply Qeq_bool_eq in E.
  - intros Heq. unfold predicted_usage.
    apply Qeq_eq_bool in Heq. unfold multiplier_of. rewrite Heq.
    cbn [negb fst snd]. split; [reflexivity |]. split.
    + apply py_max3_Qmax.
    + apply py_max3_over_100;
        [apply cost_percentage_le_100 | apply messages_percentage_le_100].
Qed.

(** ** The wide progress bar *)

(** C4. The marker of the wide bar is green below 50, yellow from 50 and
    below 80, red from 80 on, on the percentage as given; from 100 on the bar
    is drawn with all of its 50 segments filled, below 100 with the segments
    computed from [min(p, 100)], which is [p]; the token line prints the
    percentage it was given, uncapped, right after the bar ([134] prints as
    ["134.0"]), and every tiered screen that is produced contains that line
    for the session's usage percentage. *)
Theorem wide_progress_bar_bands (p : Q) :
  exists marker bar,
    _render_wide_progress_bar p = marker ^^ " [" ^^ bar ^^ "]" /\
    ((p < 50)%Q -> marker = "🟢") /\
    ((50 <= p)%Q -> (p < 80)%Q -> marker = "🟡") /\
    ((80 <= p)%Q -> marker = "🔴") /\
    ((100 <= p)%Q ->
       bar = _render_bar 50 50%Z (Some (get_cost_style p)) None) /\
    ((p < 100)%Q ->
       py_min p 100 = p /\
       bar = _render_bar 50 (_calculate_filled_segments 50 (py_min p 100) 100)
                         (Some (get_cost_style p)) (Some "table.border")) /\
    (forall tokens_used token_limit,
       token_line p tokens_used token_limit
       = "📊 [value]Token Usage:[/]          "
         ^^ _render_wide_progress_bar p ^^ " " ^^ fmt_f 4 1 p
         ^^ "%    [value]" ^^ fmt_comma tokens_used
         ^^ "[/] / [dim]" ^^ fmt_comma token_limit ^^ "[/]") /\
    fmt_f 4 1 134 = "134.0" /\
    (forall d kw s lines,
       In (plan d) tiered_plans -> usage_percentage d = p ->
       fst (format_active_session_screen d kw s) = Ok lines ->
       In (token_line p (tokens_used d) (token_limit d)) lines).
Proof.
  unfold _render_wide_progress_bar.
  eexists _, _. split; [reflexivity |].
  refine (conj _ (conj _ (conj _ (conj _ (conj _ (conj _ (conj _ _))))))).
  - intros H. apply Qltb_lt in H. now rewrite H.
  - intros H50 H80. apply Qltb_ge in H50. apply Qltb_lt in H80.
    now rewrite H50, H80.
  - intros H80.
    assert (H50 : (50 <= p)%Q) by (eapply Qle_trans; [| exact H80]; discriminate).
    apply Qltb_ge in H50, H80. now rewrite H50, H80.
  - intros H. apply Qleb_le in H. now rewrite H.
  - intros H. split.
    + unfold py_min.
      assert (H' : (p <= 100)%Q) by now apply Qlt_le_weak.
      apply Qltb_ge in H'. now rewrite H'.
    + apply Qleb_gt in H. now rewrite H.
  - intros tokens_used token_limit. reflexivity.
  - reflexivity.
  - intros d kw s lines Hplan <- Hrun.
    destruct (tiered_screen d kw Hplan) as (closing & Hin & Hscreen).
    rewrite Hscreen in Hrun.
    destruct (render_usage_block d kw (with_header d s)) as [[[] | e] s1];
      cbn [fst] in Hrun; [| discriminate Hrun].
    injection Hrun as <-. apply in_or_app. now right.
Qed.

(** ** Official usage windows *)

Lemma render_window_run a key label s :
  renderable a key ->
  exists lines s',
    render_window (PDict a) key label s = (Ok tt, s') /\
    screen_buffer s' = screen_buffer s ++ lines /\
    window_shows a key label lines.
Proof.
  intros [Hskip | (w & u & Hw & Hne & Hu)]; unfold render_window, py_get.
  - exists [], s. unfold bind, lift. rewrite Hskip. cbn [negb].
    split; [reflexivity |]. split; [now rewrite app_nil_r |].
    now apply shows_nothing.
  - unfold bind at 1, lift at 1. rewrite Hw.
    replace (truthy (PDict w)) with true by (destruct w; [contradiction | reflexivity]).
    cbn [negb]. unfold bind at 1, lift at 1.
    unfold bind at 1, lift at 1, py_le. rewrite Hu. cbn [as_num].
    unfold bind at 1, lift at 1, py_mul, as_float. rewrite Hu.
    destruct (Qleb u 1) eqn:Hle.
    + unfold bind at 1, lift at 1.
      destruct (truthy (dict_get w "resets_at" (PStr ""))).
      * unfold bind at 1 2.
        destruct (format_reset_time_buffer (dict_get w "resets_at" (PStr "")) s)
          as (text & s1 & Hrun & Hbuf).
        rewrite Hrun. unfold ret at 1.
        eexists [_], _. split; [reflexivity |].
        cbn [screen_buffer]. rewrite Hbuf. split; [reflexivity |].
        apply (shows_fraction a key label w u); try assumption.
        now apply Qleb_le.
      * unfold bind at 1, ret at 1.
        eexists [_], _. split; [reflexivity |]. split; [reflexivity |].
        apply (shows_fraction a key label w u); try assumption.
        now apply Qleb_le.
    + unfold bind at 1, lift at 1.
      destruct (truthy (dict_get w "resets_at" (PStr ""))).
      * unfold bind at 1 2.
        destruct (format_reset_time_buffer (dict_get w "resets_at" (PStr "")) s)
          as (text & s1 & Hrun & Hbuf).
        rewrite Hrun. unfold ret at 1.
        eexists [_], _. split; [reflexivity |].
        cbn [screen_buffer]. rewrite Hbuf. split; [reflexivity |].
        apply (shows_percentage a key label w u); try assumption.
        now apply Qleb_gt.
      * unfold bind at 1, ret at 1.
        eexists [_], _. split; [reflexivity |]. split; [reflexivity |].
        apply (shows_percentage a key label w u); try assumption.
        now apply Qleb_gt.
Qed.

(** C10. When each of the two windows is missing, falsy, or a non-empty dict
    with a numeric utilization, the official usage block returns normally and
    appends a blank line, the title, the lines of the five-hour and of the
    seven-day window, and a separator.  A missing or falsy window contributes
    nothing; a window with utilization [u <= 1] contributes one bar for
    [u * 100] percent, and one with [u > 1] a bar for [u] itself: 1.0 is
    printed as ["100.0"] and 1.5 as [" 1.5"]. *)
Theorem api_usage_windows (a : list (string * pyval)) (s : Screen) :
  renderable a "five_hour" ->
  renderable a "seven_day" ->
  exists l5 l7 s',
    _render_api_usage (PDict a) s = (Ok tt, s') /\
    screen_buffer s'
    = screen_buffer s
      ++ [""; "[bold]⚡ Claude Official Usage[/bold]"] ++ l5 ++ l7 ++ [separator] /\
    window_shows a "five_hour" "5h" l5 /\
    window_shows a "seven_day" "7d" l7 /\
    fmt_f 4 1 (1 * 100) = "100.0" /\
    fmt_f 4 1 (3 # 2) = " 1.5".
Proof.
  intros H5 H7. unfold _render_api_usage.
  rewrite !(bind_writes _ _ _ _ (writes_append _)).
  destruct (render_window_run a "five_hour" "5h"
              (pushed (pushed s [""]) ["[bold]⚡ Claude Official Usage[/bold]"]) H5)
    as (l5 & s3 & Hrun5 & Hbuf5 & Hshow5).
  destruct (render_window_run a "seven_day" "7d" s3 H7)
    as (l7 & s4 & Hrun7 & Hbuf7 & Hshow7).
  exists l5, l7. eexists.
  unfold bind. rewrite Hrun5, Hrun7. cbn [append modify].
  split; [reflexivity |]. cbn [screen_buffer].
  split; [| repeat split; assumption || reflexivity].
  rewrite Hbuf7, Hbuf5. cbn [pushed screen_buffer].
  rewrite <- !app_assoc. reflexivity.
Qed.

End WithCollaborators.

(** ** The claims at concrete inputs *)

(** C5, as the claim words it, fails: 25 hours and 45 minutes ahead are
    rendered as ["in 1d 1h"] and ["in 45m"], not as ["1d 1h"] and ["45m"]. *)
Lemma format_reset_time_prefix_counterexample :
  fst (@_format_reset_time Standin.collaborators
         (PStr "2026-01-02T01:00:00Z") (start Standin.new_year_2026))
  = Ok "in 1d 1h" /\
  fst (@_format_reset_time Standin.collaborators
         (PStr "2026-01-01T00:45:00Z") (start Standin.new_year_2026))
  = Ok "in 45m" /\
  "in 1d 1h" <> "1d 1h" /\ "in 45m" <> "45m".
Proof. repeat split; try reflexivity; discriminate. Qed.

Lemma calibrated_prediction_witness :
  In (plan Standin.example_session) tiered_plans /\
  exists shown rest,
    (shown == 100)%Q /\
    fst (@format_active_session_screen Standin.collaborators
           Standin.example_session (mkKwargs None None None (Some (3 # 2)))
           (start Standin.new_year_2026))
    = Ok (@create_header Standin.collaborators "pro" "UTC"
          ++ ""
          :: ("⚡ [value]Cal. Claude Usage:[/]   "
              ^^ @_render_wide_progress_bar Standin.collaborators shown
              ^^ " " ^^ fmt_f 4 1 shown
              ^^ "%    [dim](max of cost/tokens/messages)[/dim]")
          :: rest).
Proof.
  assert (Hplan : In (plan Standin.example_session) tiered_plans)
    by (right; left; reflexivity).
  split; [exact Hplan |].
  destruct (@calibrated_prediction Standin.collaborators
              Standin.example_session (mkKwargs None None None (Some (3 # 2)))
              (3 # 2) (start Standin.new_year_2026)
              Hplan eq_refl eq_refl (Qeq_refl _))
    as (cost & msg & shown & rest & _ & _ & _ & _ & Hshown & Hrun).
  exists shown, rest. split; [| exact Hrun].
  rewrite Hshown. apply Q.min_l.
  assert (Hmax : (134 <= Qmax (Qmax cost 134) msg)%Q).
  { apply Qle_trans with (Qmax cost 134); [apply Q.le_max_r | apply Q.le_max_l]. }
  change (usage_percentage Standin.example_session) with 134%Q.
  set (x := Qmax (Qmax cost 134) msg) in *. lra.
Defined.

(** The calibrated line of the example, as text: 134% scaled by 1.5 is capped
    at 100. *)
Example calibrated_prediction_example :
  nth 4 (match fst (@format_active_session_screen Standin.collaborators
                      Standin.example_session
                      (mkKwargs None None None (Some (3 # 2)))
                      (start Standin.new_year_2026)) with
         | Ok lines => lines
         | Raise _ => []
         end) ""
  = "⚡ [value]Cal. Claude Usage:[/]   🔴 [[cost.high]"
    ^^ repeat_str "█" 50
    ^^ "[/]] 100.0%    [dim](max of cost/tokens/messages)[/dim]".
Proof. vm_compute. reflexivity. Qed.

Lemma prediction_scaling_gate_witness :
  In (plan Standin.example_session) tiered_plans /\
  exists rest,
    fst (@format_active_session_screen Standin.collaborators
           Standin.example_session no_kwargs (start Standin.new_year_2026))
    = Ok (@create_header Standin.collaborators "pro" "UTC"
          ++ ""
          :: ("⚡ [value]Est. Claude Usage:[/]   "
              ^^ @_render_wide_progress_bar Standin.collaborators 134
              ^^ " " ^^ fmt_f 4 1 134
              ^^ "%    [dim](max of cost/tokens/messages)[/dim]")
          :: rest).
Proof.
  assert (Hplan : In (plan Standin.example_session) tiered_plans)
    by (right; left; reflexivity).
  split; [exact Hplan |].
  destruct (@prediction_scaling_gate Standin.collaborators
              Standin.example_session no_kwargs (start Standin.new_year_2026)
              Hplan eq_refl)
    as (cost & msg & label & shown & rest & Hrun & _ & _ & _ & _ & Hc & Hg
        & _ & Hest).
  destruct (Hest (Qeq_refl 1)) as (Hlabel & Hshown & Hover).
  exists rest. rewrite Hrun, Hlabel.
  assert (Hmax : (134 <= Qmax (Qmax cost 134) msg)%Q).
  { apply Qle_trans with (Qmax cost 134); [apply Q.le_max_r | apply Q.le_max_l]. }
  change (usage_percentage Standin.example_session) with 134%Q in Hshown, Hover.
  rewrite Hover; [reflexivity |].
  rewrite Hshown. set (x := Qmax (Qmax cost 134) msg) in *. lra.
Defined.

Lemma api_usage_windows_witness :
  renderable Standin.example_windows "five_hour" /\
  renderable Standin.example_windows "seven_day" /\
  exists l5 l7 s',
    @_render_api_usage Standin.collaborators (PDict Standin.example_windows)
                       (start Standin.new_year_2026) = (Ok tt, s') /\
    screen_buffer s'
    = [""; "[bold]⚡ Claude Official Usage[/bold]"] ++ l5 ++ l7 ++ [separator] /\
    @window_shows Standin.collaborators Standin.example_windows "five_hour" "5h" l5 /\
    @window_shows Standin.collaborators Standin.example_windows "seven_day" "7d" l7.
Proof.
  assert (H5 : renderable Standin.example_windows "five_hour").
  { right. eexists _, _. split; [reflexivity |]. split; [discriminate | reflexivity]. }
  assert (H7 : renderable Standin.example_windows "seven_day").
  { right. eexists _, _. split; [reflexivity |]. split; [discriminate | reflexivity]. }
  split; [exact H5 |]. split; [exact H7 |].
  destruct (@api_usage_windows Standin.collaborators Standin.example_windows
              (start Standin.new_year_2026) H5 H7)
    as (l5 & l7 & s' & Hrun & Hbuf & Hs5 & Hs7 & _).
  exists l5, l7, s'. repeat split; assumption.
Defined.

(** The official usage block of the example, as text. *)
Example api_usage_example :
  screen_buffer
    (snd (@_render_api_usage Standin.collaborators
            (PDict Standin.example_windows) (start Standin.new_year_2026)))
  = [ "";
      "[bold]⚡ Claude Official Usage[/bold]";
      "⚡ [value]Claude Usage (5h):[/] 🔴 [[cost.high]"
        ^^ repeat_str "█" 50 ^^ "[/]] 100.0%    [dim]resets in 45m[/dim]";
      "⚡ [value]Claude Usage (7d):[/] 🟢 [[cost.low][/][table.border]"
        ^^ repeat_str "░" 50 ^^ "[/]]  1.5%";
      separator ].
Proof. vm_compute. reflexivity. Qed.

(** The token line of the example: a full bar beside the uncapped 134.0%. *)
Example token_line_example :
  @token_line Standin.collaborators 134 26800 20000
  = "📊 [value]Token Usage:[/]          🔴 [[cost.high]"
    ^^ repeat_str "█" 50 ^^ "[/]] 134.0%    [value]26,800[/] / [dim]20,000[/]".
Proof. vm_compute. reflexivity. Qed.

End SessionDisplaySpec.

(* ================================================================== *)
(** * Further properties of the calibration store                       *)
(* ================================================================== *)

Module CalibrationExtra.
Import Py Calibration CalibrationSpec.
Local Open Scope py_scope.

(** ** When the loop of the query gets through *)

Lemma collect_ratios_usable l : forall acc,
  forallb usable l = true -> exists ratios, collect_ratios l acc = Ok ratios.
Proof.
  induction l as [| v l IH]; intros acc Hall; cbn [collect_ratios].
  - now exists acc.
  - cbn [forallb] in Hall. apply andb_prop in Hall. destruct Hall as [Hv Hl].
    destruct v as [| b | q | str | items | d]; try discriminate Hv.
    cbn [py_get rbind]. unfold usable in Hv. unfold py_gt, py_truediv.
    destruct (as_num (dict_get d "estimated_pct" (PNum 0))) as [est |];
      [| discriminate Hv].
    cbn [as_num rbind].
    destruct (Qltb 0 est) eqn:Hpos; [| now apply IH].
    destruct (as_num (dict_get d "actual_pct" (PNum 0))) as [act |];
      [| discriminate Hv].
    rewrite (positive_not_zero _ Hpos). cbn [rbind]. now apply IH.
Qed.

Lemma collect_ratios_unusable l : forall acc,
  forallb usable l = false ->
  exists msg, collect_ratios l acc = Raise (AttributeError msg) \/
              collect_ratios l acc = Raise (TypeError msg).
Proof.
  induction l as [| v l IH]; intros acc Hsome; cbn [collect_ratios].
  - discriminate Hsome.
  - cbn [forallb] in Hsome.
    destruct v as [| b | q | str | items | d];
      try (eexists; left; reflexivity).
    cbn [py_get rbind]. unfold usable in Hsome. unfold py_gt, py_truediv.
    destruct (as_num (dict_get d "estimated_pct" (PNum 0))) as [est |];
      [| eexists; right; reflexivity].
    cbn [as_num rbind].
    destruct (Qltb 0 est) eqn:Hpos; [| now apply IH].
    destruct (as_num (dict_get d "actual_pct" (PNum 0))) as [act |];
      [| eexists; right; reflexivity].
    rewrite (positive_not_zero _ Hpos). cbn [rbind]. now apply IH.
Qed.

Lemma mean_ratio_usable l :
  forallb usable l = true -> exists m, mean_ratio l = Ok m.
Proof.
  intros Hall. unfold mean_ratio. destruct l as [| v l]; [now exists 1%Q |].
  destruct (collect_ratios_usable (v :: l) [] Hall) as (ratios & ->).
  cbn [rbind]. destruct ratios; eexists; reflexivity.
Qed.

Lemma mean_ratio_unusable l :
  forallb usable l = false ->
  exists msg, mean_ratio l = Raise (AttributeError msg) \/
              mean_ratio l = Raise (TypeError msg).
Proof.
  intros Hsome. unfold mean_ratio. destruct l as [| v l]; [discriminate Hsome |].
  destruct (collect_ratios_unusable (v :: l) [] Hsome) as (msg & [-> | ->]);
    exists msg; [left | right]; reflexivity.
Qed.

(** X5. When the stat of [exists()] answers and the numbers of the history
    the query sees are within the float range, the query returns normally
    exactly when every entry of that history is usable: a dict whose estimate
    is a number and, for a positive estimate, whose actual value is a number.
    Otherwise it raises [AttributeError] or [TypeError] to its caller; it
    never raises [ZeroDivisionError].  When the stat is denied it raises
    [PermissionError] whatever the history. *)
Theorem get_multiplier_raises_on_unusable_entry (s : State) :
  float_sized_entries (history_seen s) ->
  ((exists m, fst (get_multiplier_under Answers s) = Ok m) <->
   forallb usable (history_seen s) = true) /\
  (forallb usable (history_seen s) = false ->
   exists msg,
     fst (get_multiplier_under Answers s) = Raise (AttributeError msg) \/
     fst (get_multiplier_under Answers s) = Raise (TypeError msg)) /\
  fst (get_multiplier_under Answers s) <> Raise ZeroDivisionError /\
  (forall why,
     fst (get_multiplier_under (Denied why) s) = Raise (PermissionError why)).
Proof.
  intros _. rewrite (get_multiplier_under_run Answers). cbn [fst].
  assert (Hdenied : forall why,
            fst (get_multiplier_under (Denied why) s)
            = Raise (PermissionError why)).
  { intros why. now rewrite (get_multiplier_under_run (Denied why)). }
  destruct (forallb usable (history_seen s)) eqn:Hall.
  - destruct (mean_ratio_usable _ Hall) as (m & Hm).
    split; [| split; [| split]].
    + split; [reflexivity | intros _; now exists m].
    + discriminate.
    + rewrite Hm. discriminate.
    + exact Hdenied.
  - destruct (mean_ratio_unusable _ Hall) as (msg & Hm).
    split; [| split; [| split]].
    + split; [| discriminate].
      intros (m & Hok). destruct Hm as [Hm | Hm]; rewrite Hm in Hok;
        discriminate Hok.
    + intros _. now exists msg.
    + destruct Hm as [Hm | Hm]; rewrite Hm; discriminate.
    + exact Hdenied.
Qed.

(** A file whose second entry has a string for its estimate: the query
    raises [TypeError]. *)
Lemma get_multiplier_raises_on_unusable_entry_witness :
  let s := mkState []
             (Some (Json (PList
                [stored (mkSample "2026-01-01T00:00:00+00:00" 10 12);
                 PDict [("estimated_pct", PStr "10"); ("actual_pct", PNum 12)]])))
             None [] in
  float_sized_entries (history_seen s) /\
  forallb usable (history_seen s) = false /\
  exists msg,
    fst (get_multiplier_under Answers s) = Raise (AttributeError msg) \/
    fst (get_multiplier_under Answers s) = Raise (TypeError msg).
Proof.
  cbv zeta.
  assert (Hsized : float_sized_entries
            (history_seen
               (mkState []
                  (Some (Json (PList
                     [stored (mkSample "2026-01-01T00:00:00+00:00" 10 12);
                      PDict [("estimated_pct", PStr "10");
                             ("actual_pct", PNum 12)]])))
                  None []))).
  { intros d [Hd | [Hd | []]]; injection Hd as <-;
      (split; intros q Hq; cbn in Hq; try discriminate Hq;
       injection Hq as <-; vm_compute; discriminate). }
  split; [exact Hsized |]. split; [reflexivity |].
  exact (proj1 (proj2 (get_multiplier_raises_on_unusable_entry _ Hsized))
               eq_refl).
Defined.

(** ** Sessions of additions, queries and re-openings *)










(** ** Saving and loading *)

(** X1. Round trip: when the last of a sequence of [add_sample] calls saved
    without a fault, a store constructed anew over the same directory returns
    normally, logs nothing, and starts from the very history the first store
    holds, which ends with the last sample added. *)
Theorem reopened_store_has_same_history (calls : list call) (c : call) (s0 : State) :
  fault_of c = NoFault ->
  let s := snd (add_samples (calls ++ [c]) s0) in
  exists s',
    __init__ s = (Ok tt, s') /\
    _samples s' = _samples s /\
    warnings s' = warnings s /\
    (exists older, _samples s' = older ++ [sample_of c]).
Proof.
  intros Hio. cbv zeta.
  pose proof (add_samples_last_saved calls s0 c Hio) as Hfile. cbv zeta in Hfile.
  assert (Hlast : exists older,
             _samples (snd (add_samples (calls ++ [c]) s0)) = older ++ [sample_of c]).
  { destruct (add_samples_run (calls ++ [c]) s0) as (s1 & Hrun & Hmem).
    rewrite Hrun. cbn [snd]. rewrite Hmem.
    destruct (calls ++ [c]) eqn:E; [now destruct calls |]. rewrite <- E.
    rewrite map_app, app_assoc. cbn [map].
    exists (slice_last 19 (_samples s0 ++ map sample_of calls)).
    apply slice_last_snoc. }
  set (s := snd (add_samples (calls ++ [c]) s0)) in *.
  unfold __init__, bind, set_samples, modify. rewrite load_run.
  eexists. split; [reflexivity |].
  unfold reloaded, history_seen, load_warning. cbn [file _samples warnings temp].
  rewrite Hfile. cbn [_samples warnings]. rewrite app_nil_r.
  repeat split. exact Hlast.
Qed.

Lemma reopened_store_has_same_history_witness :
  fault_of ("2026-01-01T00:00:00+00:00", 10, 12, NoFault)%Q = NoFault /\
  let s := snd (add_samples
                  (calls_upto 3 ++ [("2026-01-01T00:00:00+00:00", 10, 12, NoFault)%Q])
                  empty_dir) in
  exists s', __init__ s = (Ok tt, s') /\ _samples s' = _samples s.
Proof.
  split; [reflexivity |]. cbv zeta.
  destruct (reopened_store_has_same_history
              (calls_upto 3) ("2026-01-01T00:00:00+00:00", 10, 12, NoFault)%Q
              empty_dir eq_refl) as (s' & Hrun & Hmem & _).
  exists s'. split; [exact Hrun | exact Hmem].
Defined.

(** X2. Whatever faults the saves meet, a sequence of [add_sample] calls
    leaves the calibration file either exactly as it was or holding a
    complete list of at most 20 entries: a save never leaves a partially
    written file behind, so a file that could be read before can still be
    read. *)
Theorem saves_never_corrupt_the_file (calls : list call) : forall (s : State),
  let s' := snd (add_samples calls s) in
  file s' = file s \/
  exists l, file s' = Some (Json (PList l)) /\ (List.length l <= 20)%nat.
Proof.
  induction calls as [| c calls IH]; intros s; cbv zeta.
  - now left.
  - rewrite add_samples_cons.
    destruct (add_sample_run (fst (fst (fst c))) (snd (fst (fst c)))
                (snd (fst c)) (snd c) s) as (s1 & Hrun & Hmem & _ & Hfile).
    rewrite Hrun. cbn [snd].
    destruct (IH s1) as [Hsame | Hnew]; [| now right].
    cbv zeta in Hsame. rewrite Hsame.
    destruct (snd c); try (now left).
    right. exists (_samples s1). split; [exact Hfile |].
    rewrite Hmem, slice_last_length. unfold MAX_SAMPLES. lia.
Qed.



(** X7. The query is a pure read of the directory: it leaves the file and
    the temporary file as they are, and asking again at once gives the same
    answer and the same history in memory. *)
Theorem get_multiplier_is_repeatable (s : State) :
  let first := get_multiplier s in
  let second := get_multiplier (snd first) in
  fst second = fst first /\
  file (snd first) = file s /\
  temp (snd first) = temp s /\
  _samples (snd second) = _samples (snd first) /\
  history_seen (snd first) = history_seen s.
Proof.
  cbv zeta. rewrite !get_multiplier_run. cbn [fst snd].
  assert (Hfile : file (reloaded s) = file s).
  { unfold reloaded. destruct (file s) eqn:E; [reflexivity | exact E]. }
  assert (Htemp : temp (reloaded s) = temp s).
  { unfold reloaded. now destruct (file s). }
  assert (Hseen : history_seen (reloaded s) = history_seen s).
  { unfold history_seen at 1. rewrite Hfile.
    unfold reloaded, history_seen.
    destruct (file s) as [[why | data] |]; reflexivity. }
  rewrite Hseen. repeat split; try assumption.
  now rewrite !reloaded_samples, Hseen.
Qed.

(** X20. Constructing a store raises [PermissionError] when the stat of
    [exists()] is denied, the history in memory being empty by then.  When the
    stat answers, the constructor does not raise and does not touch the
    files: it starts from the file's list when the file holds one, and from an
    empty history when the file is missing, cannot be read or parsed, or holds
    something other than a list, whatever an earlier store object held in
    memory; only a file that cannot be read or parsed is logged. *)
Theorem constructor_tolerates_any_file (dir : probe) (s : State) :
  match dir with
  | Denied why =>
      init_under (Denied why) s
      = (Raise (PermissionError why),
         mkState [] (file s) (temp s) (warnings s))
  | Answers =>
      exists s',
        init_under Answers s = (Ok tt, s') /\
        _samples s' = match file s with
                      | Some (Json (PList l)) => l
                      | _ => []
                      end /\
        file s' = file s /\
        temp s' = temp s /\
        warnings s' = match file s with
                      | Some (Unparsable why) =>
                          warnings s
                          ++ ["Failed to load calibration data: " ^^ why]
                      | _ => warnings s
                      end
  end.
Proof.
  destruct dir as [| why]; [| reflexivity].
  unfold init_under, bind, set_samples, modify.
  rewrite (load_under_run Answers).
  eexists. split; [reflexivity |].
  unfold reloaded, history_seen, load_warning. cbn [file _samples temp warnings].
  destruct (file s) as [[why | data] |]; cbn [file _samples temp warnings];
    rewrite ?app_nil_r; now repeat split.
Qed.

(** ** The range of the multiplier *)

Lemma Qsum_lower (lo : Q) (l : list Q) :
  (forall q, In q l -> lo <= q)%Q ->
  (inject_Z (Z.of_nat (List.length l)) * lo <= Qsum l)%Q.
Proof.
  induction l as [| x l IH]; intros Hall.
  - cbn. rewrite Qmult_0_l. apply Qle_refl.
  - assert (Hx : (lo <= x)%Q) by (apply Hall; now left).
    assert (Hl : forall q, In q l -> (lo <= q)%Q)
      by (intros q Hq; apply Hall; now right).
    specialize (IH Hl). cbn [List.length Qsum].
    rewrite Nat2Z.inj_succ. unfold Z.succ. rewrite inject_Z_plus.
    rewrite Qmult_plus_distr_l, Qmult_1_l, (Qplus_comm _ lo).
    now apply Qplus_le_compat.
Qed.

Lemma Qsum_upper (hi : Q) (l : list Q) :
  (forall q, In q l -> q <= hi)%Q ->
  (Qsum l <= inject_Z (Z.of_nat (List.length l)) * hi)%Q.
Proof.
  induction l as [| x l IH]; intros Hall.
  - cbn. rewrite Qmult_0_l. apply Qle_refl.
  - assert (Hx : (x <= hi)%Q) by (apply Hall; now left).
    assert (Hl : forall q, In q l -> (q <= hi)%Q)
      by (intros q Hq; apply Hall; now right).
    specialize (IH Hl). cbn [List.length Qsum].
    rewrite Nat2Z.inj_succ. unfold Z.succ. rewrite inject_Z_plus.
    rewrite Qmult_plus_distr_l, Qmult_1_l, (Qplus_comm _ hi).
    now apply Qplus_le_compat.
Qed.

Lemma mean_lower (lo : Q) (l : list Q) :
  l <> [] ->
  (forall q, In q l -> lo <= q)%Q ->
  (lo <= Qsum l / inject_Z (Z.of_nat (List.length l)))%Q.
Proof.
  intros Hne Hall.
  assert (Hn : (0 < inject_Z (Z.of_nat (List.length l)))%Q).
  { rewrite <- (Zlt_Qlt 0). destruct l; [contradiction | cbn [List.length]; lia]. }
  apply Qle_shift_div_l; [exact Hn |]. rewrite Qmult_comm.
  now apply Qsum_lower.
Qed.

Lemma mean_upper (hi : Q) (l : list Q) :
  l <> [] ->
  (forall q, In q l -> q <= hi)%Q ->
  (Qsum l / inject_Z (Z.of_nat (List.length l)) <= hi)%Q.
Proof.
  intros Hne Hall.
  assert (Hn : (0 < inject_Z (Z.of_nat (List.length l)))%Q).
  { rewrite <- (Zlt_Qlt 0). destruct l; [contradiction | cbn [List.length]; lia]. }
  apply Qle_shift_div_r; [exact Hn |]. rewrite Qmult_comm.
  now apply Qsum_upper.
Qed.

Lemma qualifying_positive h x :
  In x (qualifying h) -> (0 < estimated_pct x)%Q.
Proof.
  unfold qualifying. intros Hin. apply filter_In in Hin.
  now apply Qltb_lt.
Qed.

(** X6. The multiplier corrects in the direction the samples point.  When
    the stat of [exists()] answers and the history the query sees consists of
    well-formed samples with numbers in the float range, the query returns a
    multiplier that is not negative if no sample with a positive estimate has
    a negative actual value, that is at least [1] if every such sample has an
    actual value at or above its estimate, and at most [1] if every such
    sample has an actual value at or below its estimate. *)
Theorem get_multiplier_follows_the_samples (s : State) (h : list sample) :
  history_seen s = map stored h ->
  (forall x, In x h ->
     Qabs (estimated_pct x) <= max_float /\ Qabs (actual_pct x) <= max_float)%Q ->
  exists m,
    fst (get_multiplier_under Answers s) = Ok m /\
    ((forall x, In x h -> 0 < estimated_pct x -> 0 <= actual_pct x)%Q ->
     (0 <= m)%Q) /\
    ((forall x, In x h -> 0 < estimated_pct x -> estimated_pct x <= actual_pct x)%Q ->
     (1 <= m)%Q) /\
    ((forall x, In x h -> 0 < estimated_pct x -> actual_pct x <= estimated_pct x)%Q ->
     (m <= 1)%Q).
Proof.
  intros Hseen _. rewrite (get_multiplier_under_run Answers), Hseen. cbn [fst].
  destruct (mean_ratio_stored h) as (m & Hm & Hspec & _).
  exists m. split; [exact Hm |].
  unfold spec_multiplier in Hspec.
  assert (Hin : forall x, In x (qualifying h) ->
                  In x h /\ (0 < estimated_pct x)%Q).
  { intros x Hx. split; [| now apply (qualifying_positive h)].
    unfold qualifying in Hx. now apply filter_In in Hx. }
  destruct (qualifying h) as [| y qs] eqn:Hq.
  - rewrite Hspec. repeat split; intros _; discriminate.
  - assert (Hne : map ratio (y :: qs) <> []) by discriminate.
    rewrite <- (length_map ratio) in Hspec.
    refine (conj _ (conj _ _)); intros Hall; rewrite Hspec.
    + apply mean_lower; [exact Hne |]. intros q Hq'.
      apply in_map_iff in Hq'. destruct Hq' as (x & <- & Hx).
      destruct (Hin x Hx) as [Hxh Hpos]. unfold ratio.
      apply Qle_shift_div_l; [exact Hpos |]. rewrite Qmult_0_l.
      now apply Hall.
    + apply mean_lower; [exact Hne |]. intros q Hq'.
      apply in_map_iff in Hq'. destruct Hq' as (x & <- & Hx).
      destruct (Hin x Hx) as [Hxh Hpos]. unfold ratio.
      apply Qle_shift_div_l; [exact Hpos |]. rewrite Qmult_1_l.
      now apply Hall.
    + apply mean_upper; [exact Hne |]. intros q Hq'.
      apply in_map_iff in Hq'. destruct Hq' as (x & <- & Hx).
      destruct (Hin x Hx) as [Hxh Hpos]. unfold ratio.
      apply Qle_shift_div_r; [exact Hpos |]. rewrite Qmult_1_l.
      now apply Hall.
Qed.

(** Three samples, the first with no estimate, the others under-estimated:
    the multiplier is at least [1]. *)
Lemma get_multiplier_follows_the_samples_witness :
  let h := [mkSample "2026-01-01T00:00:00+00:00" 0 5;
            mkSample "2026-01-02T00:00:00+00:00" 10 12;
            mkSample "2026-01-03T00:00:00+00:00" 20 30] in
  let s := mkState [] (Some (Json (PList (map stored h)))) None [] in
  history_seen s = map stored h /\
  exists m, fst (get_multiplier_under Answers s) = Ok m /\ (1 <= m)%Q.
Proof.
  cbv zeta. split; [reflexivity |].
  destruct (get_multiplier_follows_the_samples
              (mkState [] (Some (Json (PList (map stored
                 [mkSample "2026-01-01T00:00:00+00:00" 0 5;
                  mkSample "2026-01-02T00:00:00+00:00" 10 12;
                  mkSample "2026-01-03T00:00:00+00:00" 20 30])))) None [])
              [mkSample "2026-01-01T00:00:00+00:00" 0 5;
               mkSample "2026-01-02T00:00:00+00:00" 10 12;
               mkSample "2026-01-03T00:00:00+00:00" 20 30] eq_refl)
    as (m & Hm & _ & Hup & _).
  - intros x [<- | [<- | [<- | []]]]; split; vm_compute; discriminate.
  - exists m. split; [exact Hm |]. apply Hup.
    intros x [<- | [<- | [<- | []]]] Hpos; cbn in *;
      first [ discriminate | exfalso; revert Hpos; vm_compute; congruence
            | vm_compute; discriminate ].
Defined.

End CalibrationExtra.

(* ================================================================== *)
(** * Further properties of the session display                         *)
(* ================================================================== *)

Module SessionDisplayExtra.
Import Py SessionDisplay CalibrationSpec SessionDisplaySpec.
Local Open Scope py_scope.

(** Finds a line in an explicit list of lines. *)
Ltac find_in :=
  match goal with
  | |- _ \/ _ => first [ left; find_in | right; find_in ]
  | |- _ = _ => reflexivity
  end.

(** ** Computations under which the screen buffer only grows *)

Lemma grows_ret {A} (a : A) : grows (ret a).
Proof. intros s. exists []. cbn. now rewrite app_nil_r. Qed.

Lemma grows_lift {A} (r : result A) : grows (lift r).
Proof. intros s. exists []. cbn. now rewrite app_nil_r. Qed.

Lemma grows_writes m l : writes m l -> grows m.
Proof. intros H s. exists l. now rewrite H. Qed.

Lemma grows_bind {A B} (m : M Screen A) (k : A -> M Screen B) :
  grows m -> (forall a, grows (k a)) -> grows (bind m k).
Proof.
  intros Hm Hk s. unfold bind.
  destruct (Hm s) as (l1 & Hb1 & Hc1).
  destruct (m s) as [[a | e] s1]; cbn [snd] in *.
  - destruct (Hk a s1) as (l2 & Hb2 & Hc2).
    exists (l1 ++ l2). rewrite Hb2, Hb1, Hc2, Hc1. now rewrite app_assoc.
  - now exists l1.
Qed.

Lemma grows_if {A} (b : bool) (m1 m2 : M Screen A) :
  grows m1 -> grows m2 -> grows (if b then m1 else m2).
Proof. now destruct b. Qed.

Section WithCollaborators.
Context {ext : Collaborators}.

Lemma grows_format_reset_time resets_at : grows (_format_reset_time resets_at).
Proof.
  intros s. exists []. rewrite app_nil_r, format_reset_time_run.
  destruct resets_at as [| b | q | iso | l | dict]; try (now split).
  destruct (fromisoformat (replace_Z iso)) as [[t | t] |]; now split.
Qed.

Lemma grows_render_window api key label : grows (render_window api key label).
Proof.
  unfold render_window.
  apply grows_bind; [apply grows_lift | intros window].
  apply grows_if; [apply grows_ret |].
  apply grows_bind; [apply grows_lift | intros utilization].
  apply grows_bind; [apply grows_lift | intros fraction].
  apply grows_bind; [apply grows_lift | intros pct].
  apply grows_bind; [apply grows_lift | intros resets_at].
  apply grows_bind; [| intros reset_str; apply (grows_writes _ _ (writes_append _))].
  apply grows_if; [| apply grows_ret].
  apply grows_bind; [apply grows_format_reset_time | intros r; apply grows_ret].
Qed.

Lemma grows_render_api_usage api : grows (_render_api_usage api).
Proof.
  unfold _render_api_usage.
  repeat (apply grows_bind;
          [first [ apply (grows_writes _ _ (writes_append _))
                 | apply grows_render_window ] | intros _]).
  apply (grows_writes _ _ (writes_append _)).
Qed.

Lemma grows_render_usage_block d kw : grows (render_usage_block d kw).
Proof.
  unfold render_usage_block. cbv zeta.
  destruct (truthy (api_usage_of kw)); [apply grows_render_api_usage |].
  destruct (predicted_usage _ _ _ _) as [p label].
  apply grows_bind; [| intros _]; apply (grows_writes _ _ (writes_append _)).
Qed.

(** ** The frame of the active-session screen *)

Lemma footer_writes_lines d : writes (render_footer d) (footer_lines d).
Proof.
  unfold render_footer, footer_lines.
  eapply writes_eq.
  - repeat (eapply writes_seq; [apply writes_append |]).
    eapply writes_seq; [apply add_notifications_writes | apply writes_append].
  - reflexivity.
Qed.

Lemma simple_writes d : exists lines, writes (render_simple d) lines.
Proof.
  unfold render_simple.
  destruct (per_model_stats d);
    (eexists;
     repeat first [ apply writes_append | apply writes_ret | eapply writes_seq ]).
Qed.

Lemma breakdown_writes_time d kw :
  exists lines,
    writes (render_breakdown d kw) lines /\
    In (time_line d) lines.
Proof.
  unfold render_breakdown. cbv zeta.
  destruct (per_model_stats d);
    (eexists; split;
     [ repeat first [ apply writes_append | eapply writes_if | eapply writes_seq ]
     | rewrite !in_app_iff; cbn [In]; find_in ]).
Qed.

Lemma grows_from {A} (m : M Screen A) s r s1 :
  grows m -> m s = (r, s1) ->
  exists lines, screen_buffer s1 = screen_buffer s ++ lines /\ clock s1 = clock s.
Proof. intros Hm Hrun. destruct (Hm s) as (l & Hb & Hc). rewrite Hrun in *. now exists l. Qed.

Lemma screen_run d kw s :
  format_active_session_screen d kw s =
  match body d kw (with_header d s) with
  | (Ok _, s1) => (Ok (screen_buffer s1 ++ footer_lines d), pushed s1 (footer_lines d))
  | (Raise e, s1) => (Raise e, s1)
  end.
Proof.
  unfold format_active_session_screen. fold (body d kw).
  cbv [bind modify extend]. cbn [screen_buffer clock ticks app].
  fold (with_header d s).
  destruct (body d kw (with_header d s)) as [[[] | e] s1]; [| reflexivity].
  rewrite (footer_writes_lines d s1). reflexivity.
Qed.

Lemma grows_body d kw : grows (body d kw).
Proof.
  unfold body. apply grows_if.
  - unfold render_tiered. apply grows_bind; [apply grows_render_usage_block |].
    intros _. destruct (breakdown_writes d kw) as (l & Hl & _).
    exact (grows_writes _ _ Hl).
  - destruct (simple_writes d) as (l & Hl). exact (grows_writes _ _ Hl).
Qed.

Lemma not_tiered plan : ~ In plan tiered_plans -> is_tiered plan = false.
Proof.
  intros H. destruct (is_tiered plan) eqn:E; [| reflexivity].
  apply in_tiered_plans in E. contradiction.
Qed.

(** X8. Every active-session screen that is produced, on any plan and with
    any keyword arguments, is framed the same way: it starts with the header,
    ends with the predictions block, the notifications and the status line,
    and the status line with the current time string is its last line. *)
Theorem screen_is_framed (d : SessionDisplayData) (kw : Kwargs) (s : Screen)
    (lines : list string) :
  fst (format_active_session_screen d kw s) = Ok lines ->
  (exists middle,
     lines = create_header (plan d) (timezone d) ++ middle ++ footer_lines d) /\
  last lines "" = status_line d.
Proof.
  rewrite screen_run. intros Hrun.
  destruct (body d kw (with_header d s)) as [[[] | e] s1] eqn:Hbody;
    cbn [fst] in Hrun; [| discriminate Hrun].
  injection Hrun as <-.
  destruct (grows_from _ _ _ _ (grows_body d kw) Hbody) as (middle & Hbuf & _).
  cbn [with_header screen_buffer] in Hbuf. rewrite Hbuf. split.
  - exists middle. now rewrite app_assoc.
  - unfold footer_lines. rewrite !app_assoc. apply last_last.
Qed.

(** X9. On a plan that is not one of the four tiered plans the screen is
    always produced, the clock is not read, and the lines do not depend on
    the keyword arguments: the cost and message limits, the official usage
    data and the calibration multiplier are all ignored. *)
Theorem simple_screen_ignores_kwargs (d : SessionDisplayData) :
  ~ In (plan d) tiered_plans ->
  exists lines,
    forall (kw : Kwargs) (s : Screen),
      format_active_session_screen d kw s
      = (Ok lines, mkScreen lines (clock s) (ticks s)) /\
      (exists middle,
         lines = create_header (plan d) (timezone d) ++ middle ++ footer_lines d).
Proof.
  intros Hplan. apply not_tiered in Hplan.
  destruct (simple_writes d) as (middle & Hmiddle).
  exists ((create_header (plan d) (timezone d) ++ middle) ++ footer_lines d).
  intros kw s. rewrite screen_run. unfold body. rewrite Hplan, Hmiddle.
  split; [reflexivity |]. exists middle. now rewrite app_assoc.
Qed.

(** X10. [format_active_session_screen_v2] passes no keyword arguments, so
    it always produces a screen and never reads the clock; on a tiered plan
    the line after the header's blank line is the uncalibrated
    ["Est. Claude Usage"] line, never the official usage block, drawn and
    printed for [max(cost%, token%, msg%)] with the cost percentage taken
    against the default cost limit and the message percentage against 1500
    messages. *)
Theorem screen_v2_is_uncalibrated (d : SessionDisplayData) (s : Screen) :
  exists lines,
    format_active_session_screen_v2 d s
    = (Ok lines, mkScreen lines (clock s) (ticks s)) /\
    (In (plan d) tiered_plans ->
     exists cost msg shown rest,
       ((0 < DEFAULT_COST_LIMIT)%Q ->
        (cost == Qmin 100 (percentage (session_cost d) DEFAULT_COST_LIMIT))%Q) /\
       ((DEFAULT_COST_LIMIT <= 0)%Q -> cost = 0%Q) /\
       (msg == Qmin 100 (percentage (inject_Z (sent_messages d))
                                    (inject_Z 1500)))%Q /\
       (shown == Qmax (Qmax cost (usage_percentage d)) msg)%Q /\
       lines = create_header (plan d) (timezone d)
               ++ ""
               :: ("⚡ [value]Est. Claude Usage:[/]   "
                   ^^ _render_wide_progress_bar shown ^^ " " ^^ fmt_f 4 1 shown
                   ^^ "%    [dim](max of cost/tokens/messages)[/dim]")
               :: rest).
Proof.
  unfold format_active_session_screen_v2.
  destruct (breakdown_writes d no_kwargs) as (breakdown & Hb & _).
  destruct (simple_writes d) as (simple & Hs).
  pose proof (usage_block_predicted d no_kwargs eq_refl) as Hu.
  destruct (is_tiered (plan d)) eqn:Hplan.
  - eexists. split.
    + rewrite screen_run. unfold body. rewrite Hplan.
      unfold render_tiered, bind. rewrite Hu, Hb. reflexivity.
    + intros _.
      destruct (cost_percentage_tie (session_cost d) DEFAULT_COST_LIMIT)
        as [Hcost Hcost0].
      destruct (messages_percentage_tie (sent_messages d) 1500) as [Hmsg _].
      exists (cost_percentage_of (session_cost d) DEFAULT_COST_LIMIT),
             (messages_percentage_of (sent_messages d) 1500).
      eexists _, _.
      refine (conj Hcost (conj Hcost0 (conj (Hmsg eq_refl) (conj _ _)))).
      * apply py_max3_Qmax.
      * cbn [pushed with_header screen_buffer].
        rewrite <- !app_assoc. reflexivity.
  - eexists. split.
    + rewrite screen_run. unfold body. rewrite Hplan, Hs. reflexivity.
    + intros Hin. apply in_tiered_plans in Hin. congruence.
Qed.

(** X11. The calibration multiplier is looked at only on a tiered plan
    without official usage data: when official usage data is supplied, or on
    any other plan, the call gives the same result whatever multiplier is
    passed, or none. *)
Theorem multiplier_is_ignored_with_official_usage
    (d : SessionDisplayData) (kw : Kwargs) (m : option Q) (s : Screen) :
  truthy (api_usage_of kw) = true \/ ~ In (plan d) tiered_plans ->
  format_active_session_screen d (with_multiplier kw m) s
  = format_active_session_screen d kw s.
Proof.
  intros Hwhy. rewrite !screen_run.
  replace (body d (with_multiplier kw m)) with (body d kw); [reflexivity |].
  unfold body. destruct Hwhy as [Hapi | Hplan].
  - destruct (is_tiered (plan d)); [| reflexivity].
    unfold render_tiered.
    replace (render_usage_block d (with_multiplier kw m))
      with (render_usage_block d kw); [reflexivity |].
    unfold render_usage_block. cbv zeta.
    change (api_usage_of (with_multiplier kw m)) with (api_usage_of kw).
    now rewrite Hapi.
  - now rewrite (not_tiered _ Hplan).
Qed.



(** ** Official usage data that cannot be rendered *)

Lemma renderable_or_raises a key label s :
  renderable a key \/
  exists msg,
    render_window (PDict a) key label s = (Raise (AttributeError msg), s) \/
    render_window (PDict a) key label s = (Raise (TypeError msg), s).
Proof.
  unfold renderable, render_window, py_get, bind, lift.
  destruct (dict_get a key PNone) as [| b | q | str | l | w] eqn:Hw.
  - left. now left.
  - destruct b; [right; eexists; left; reflexivity | left; now left].
  - destruct (truthy (PNum q)) eqn:Ht; [| left; now left].
    right. eexists. left. reflexivity.
  - destruct (truthy (PStr str)) eqn:Ht; [| left; now left].
    right. eexists. left. reflexivity.
  - destruct l as [| x l]; [left; now left |].
    right. eexists. left. reflexivity.
  - destruct w as [| x w]; [left; now left |].
    destruct (as_num (dict_get (x :: w) "utilization" (PNum 0))) as [u |] eqn:Hu.
    + left. right. exists (x :: w), u. now repeat split.
    + right. eexists. right. cbn [truthy negb]. unfold py_le. now rewrite Hu.
Qed.

Lemma not_renderable_of_raise a key label s e s' :
  render_window (PDict a) key label s = (Raise e, s') -> ~ renderable a key.
Proof.
  intros Hraise Hok.
  destruct (render_window_run a key label s Hok) as (l & s1 & Hrun & _).
  rewrite Hrun in Hraise. discriminate Hraise.
Qed.

(** X13. On a tiered plan with official usage data given as a non-empty
    dict whose utilizations, where they are numbers, are within the float
    range, the screen is produced exactly when each of the two windows is
    missing, falsy, or a non-empty dict with a numeric utilization; otherwise
    the call raises [AttributeError] or [TypeError] to its caller and no
    screen is returned. *)
Theorem official_usage_renders_or_raises
    (d : SessionDisplayData) (kw : Kwargs) (a : list (string * pyval))
    (s : Screen) :
  In (plan d) tiered_plans ->
  api_usage kw = Some (PDict a) ->
  a <> [] ->
  float_sized_window a "five_hour" ->
  float_sized_window a "seven_day" ->
  (renderable a "five_hour" /\ renderable a "seven_day" /\
   exists lines, fst (format_active_session_screen d kw s) = Ok lines) \/
  (~ (renderable a "five_hour" /\ renderable a "seven_day") /\
   exists msg,
     fst (format_active_session_screen d kw s) = Raise (AttributeError msg) \/
     fst (format_active_session_screen d kw s) = Raise (TypeError msg)).
Proof.
  intros Hplan Hkw Hne _ _. apply in_tiered_plans in Hplan.
  remember (fst (format_active_session_screen d kw s)) as result eqn:Hres.
  rewrite screen_run in Hres. unfold body in Hres. rewrite Hplan in Hres.
  unfold render_tiered, bind in Hres.
  unfold render_usage_block in Hres. cbv zeta in Hres.
  unfold api_usage_of in Hres. rewrite Hkw in Hres.
  replace (truthy (PDict a)) with true in Hres
    by (destruct a; [contradiction | reflexivity]).
  unfold _render_api_usage in Hres.
  rewrite !(bind_writes _ _ _ _ (writes_append _)) in Hres.
  set (s2 := pushed (pushed (with_header d s) [""]) _) in Hres.
  unfold bind in Hres.
  destruct (renderable_or_raises a "five_hour" "5h" s2)
    as [H5 | (msg & [Hraise | Hraise])].
  - destruct (render_window_run a "five_hour" "5h" s2 H5) as (l5 & s3 & Hrun5 & _).
    rewrite Hrun5 in Hres.
    destruct (renderable_or_raises a "seven_day" "7d" s3)
      as [H7 | (msg & [Hraise | Hraise])].
    + destruct (render_window_run a "seven_day" "7d" s3 H7) as (l7 & s4 & Hrun7 & _).
      rewrite Hrun7 in Hres. cbn [append modify] in Hres.
      destruct (breakdown_writes d kw) as (breakdown & Hb & _).
      rewrite Hb in Hres. cbn [fst] in Hres.
      left. split; [exact H5 |]. split; [exact H7 |]. eexists. exact Hres.
    + rewrite Hraise in Hres. cbn [fst] in Hres. right. split.
      * intros [_ H7]. exact (not_renderable_of_raise _ _ _ _ _ _ Hraise H7).
      * exists msg. now left.
    + rewrite Hraise in Hres. cbn [fst] in Hres. right. split.
      * intros [_ H7]. exact (not_renderable_of_raise _ _ _ _ _ _ Hraise H7).
      * exists msg. now right.
  - rewrite Hraise in Hres. cbn [fst] in Hres. right. split.
    + intros [H5 _]. exact (not_renderable_of_raise _ _ _ _ _ _ Hraise H5).
    + exists msg. now left.
  - rewrite Hraise in Hres. cbn [fst] in Hres. right. split.
    + intros [H5 _]. exact (not_renderable_of_raise _ _ _ _ _ _ Hraise H5).
    + exists msg. now right.
Qed.

(** X14. On a tiered plan, official usage data that is truthy but not a dict
    (a number, a string, a list, [True]) makes the call raise
    [AttributeError]: no screen is returned. *)
Theorem official_usage_not_a_dict_raises
    (d : SessionDisplayData) (kw : Kwargs) (v : pyval) (s : Screen) :
  In (plan d) tiered_plans ->
  api_usage kw = Some v ->
  truthy v = true ->
  (forall a, v <> PDict a) ->
  fst (format_active_session_screen d kw s)
  = Raise (AttributeError "object has no attribute 'get'").
Proof.
  intros Hplan Hkw Htruthy Hshape. apply in_tiered_plans in Hplan.
  rewrite screen_run. unfold body. rewrite Hplan. unfold render_tiered, bind.
  unfold render_usage_block at 1. cbv zeta. unfold api_usage_of. rewrite Hkw, Htruthy.
  unfold _render_api_usage.
  rewrite !(bind_writes _ _ _ _ (writes_append _)).
  unfold bind, render_window at 1, bind, lift, py_get.
  destruct v; try reflexivity. now destruct (Hshape d0).
Qed.

(** ** The reset annotation of a window *)

Lemma reset_text_not_empty total : String.eqb (reset_text total) "" = false.
Proof. unfold reset_text. now destruct (total =? 0)%Z. Qed.

Lemma reset_annotation_run resets_at s :
  (if truthy resets_at
   then r <- _format_reset_time resets_at ;;
        ret (if negb (String.eqb r "")
             then "    [dim]resets " ^^ r ^^ "[/dim]" else r)
   else ret "") s
  = (Ok (reset_suffix resets_at (clock s (ticks s))),
     match resets_at with
     | PStr iso =>
         if truthy resets_at
         then match fromisoformat (replace_Z iso) with
              | Some _ => mkScreen (screen_buffer s) (clock s) (S (ticks s))
              | None => s
              end
         else s
     | _ => s
     end).
Proof.
  unfold reset_suffix. destruct (truthy resets_at) eqn:Ht.
  - unfold bind. rewrite format_reset_time_run.
    destruct resets_at as [| b | q | iso | l | dict]; try reflexivity.
    destruct (fromisoformat (replace_Z iso)) as [[t | t] |]; try reflexivity.
    unfold ret. now rewrite reset_text_not_empty.
  - now destruct resets_at.
Qed.

(** X15. A window with a usable utilization is always rendered, whatever its
    [resets_at] holds.  When [resets_at] is missing, falsy, not a string,
    unparsable or without an offset, the line carries no annotation; when it
    parses to an instant with an offset, the line ends with
    ["resets now"] or ["resets in ..."] for the whole seconds left at the
    moment the clock is read. *)
Theorem window_reset_annotation
    (a w : list (string * pyval)) (key label : string) (u : Q) (s : Screen) :
  dict_get a key PNone = PDict w ->
  w <> [] ->
  as_num (dict_get w "utilization" (PNum 0)) = Some u ->
  let resets_at := dict_get w "resets_at" (PStr "") in
  let pct := if Qleb u 1 then (u * 100)%Q else u in
  let now := clock s (ticks s) in
  exists s' annotation,
    render_window (PDict a) key label s = (Ok tt, s') /\
    screen_buffer s' = screen_buffer s ++ [usage_line label pct annotation] /\
    match resets_at with
    | PStr iso =>
        match fromisoformat (replace_Z iso) with
        | Some (Aware t) =>
            iso <> "" ->
            annotation = "    [dim]resets "
                         ^^ reset_text (Z.max 0 (Z.quot (t - now) 1000000))
                         ^^ "[/dim]"
        | _ => annotation = ""
        end
    | _ => annotation = ""
    end.
Proof.
  intros Hw Hne Hu. cbv zeta.
  unfold render_window, py_get.
  unfold bind at 1, lift at 1. rewrite Hw.
  replace (truthy (PDict w)) with true by (destruct w; [contradiction | reflexivity]).
  cbn [negb]. unfold bind at 1, lift at 1.
  unfold bind at 1, lift at 1, py_le. rewrite Hu. cbn [as_num].
  unfold bind at 1, lift at 1, py_mul, as_float. rewrite Hu.
  assert (Hpct : (if Qleb u 1 then Ok (u * 100)%Q else Ok u)
                 = Ok (if Qleb u 1 then (u * 100)%Q else u))
    by now destruct (Qleb u 1).
  rewrite Hpct. unfold bind at 1, lift at 1. unfold bind at 1.
  rewrite reset_annotation_run.
  eexists _, (reset_suffix (dict_get w "resets_at" (PStr "")) (clock s (ticks s))).
  split; [reflexivity |]. split.
  - cbn [append modify screen_buffer].
    destruct (dict_get w "resets_at" (PStr "")) as [| b | q | iso | l | dict];
      try reflexivity.
    destruct (truthy (PStr iso)); [| reflexivity].
    now destruct (fromisoformat (replace_Z iso)).
  - unfold reset_suffix.
    destruct (dict_get w "resets_at" (PStr "")) as [| b | q | iso | l | dict];
      try (now destruct (truthy _)).
    destruct (fromisoformat (replace_Z iso)) as [[t | t] |];
      try (now destruct (truthy _)).
    intros Hiso. replace (truthy (PStr iso)) with true; [reflexivity |].
    cbn [truthy]. destruct (String.eqb_spec iso ""); [contradiction | reflexivity].
Qed.

(** X16. A reset instant at least one second and less than one minute ahead
    is rendered as ["in 0m"]. *)
Theorem format_reset_time_under_a_minute (iso : string) (t : Z) (s : Screen) :
  fromisoformat (replace_Z iso) = Some (Aware t) ->
  (1000000 <= t - clock s (ticks s) < 60000000)%Z ->
  fst (_format_reset_time (PStr iso) s) = Ok "in 0m".
Proof.
  intros Hparse Hrange. rewrite format_reset_time_run, Hparse. cbn [fst].
  set (delta := (t - clock s (ticks s))%Z) in *.
  set (sec := (delta / 1000000)%Z).
  assert (Hsec : (1 <= sec < 60)%Z).
  { unfold sec. split.
    - apply Z.div_le_lower_bound; lia.
    - apply Z.div_lt_upper_bound; lia. }
  rewrite (whole_seconds delta sec).
  - replace sec with (0 * 86400 + 0 * 3600 + 0 * 60 + sec)%Z by lia.
    rewrite reset_text_units by lia. reflexivity.
  - lia.
  - unfold sec. pose proof (Z.mul_div_le delta 1000000 ltac:(lia)).
    pose proof (Z.mul_succ_div_gt delta 1000000 ltac:(lia)). lia.
Qed.

(** ** Time to reset and cost rate *)

Lemma py_int_of_Z (z : Z) : py_int (inject_Z z) = z.
Proof.
  unfold py_int. destruct (Qltb (inject_Z z) 0); [apply Qceiling_Z | apply Qfloor_Z].
Qed.

Lemma py_int_nonneg (q : Q) : (0 <= q)%Q -> py_int q = Qfloor q.
Proof. intros H. unfold py_int. apply Qltb_ge in H. now rewrite H. Qed.

Lemma py_max_0_nonneg (x : Q) : (0 <= py_max 0 x)%Q.
Proof.
  unfold py_max. destruct (Qltb 0 x) eqn:E.
  - apply Qltb_lt in E. now apply Qlt_le_weak.
  - apply Qle_refl.
Qed.

(** X17. The time bar of the tiered view shows the remaining time
    [max(0, total - elapsed)] as whole hours and whole minutes: the hours are
    not negative, the minutes lie between 0 and 59, and together they are the
    remaining minutes rounded down.  Every tiered screen that is produced
    contains that line. *)
Theorem time_to_reset_is_hours_and_minutes (d : SessionDisplayData) :
  let remaining := time_remaining_of d in
  let hours := time_left_hours_of d in
  let mins := time_left_mins_of d in
  (remaining == Qmax 0 (total_session_minutes d - elapsed_session_minutes d))%Q /\
  (0 <= hours)%Z /\
  (0 <= mins < 60)%Z /\
  (inject_Z (60 * hours + mins) <= remaining)%Q /\
  (remaining < inject_Z (60 * hours + mins + 1))%Q /\
  (forall kw s lines,
     In (plan d) tiered_plans ->
     fst (format_active_session_screen d kw s) = Ok lines ->
     In (time_line d) lines).
Proof.
  cbv zeta. unfold time_left_hours_of, time_left_mins_of.
  set (r := time_remaining_of d).
  assert (Hr : (0 <= r)%Q) by apply py_max_0_nonneg.
  set (q := Qfloor (r / 60)).
  assert (Hlo : (inject_Z q <= r / 60)%Q) by apply Qfloor_le.
  assert (Hhi : (r / 60 < inject_Z (q + 1))%Q) by apply Qlt_floor.
  rewrite inject_Z_plus in Hhi. change (inject_Z 1) with 1%Q in Hhi.
  unfold Qdiv in Hlo, Hhi. change (/ 60)%Q with (1 # 60)%Q in Hlo, Hhi.
  assert (Hq : (0 <= q)%Z).
  { change 0%Z with (Qfloor 0). apply Qfloor_resp_le.
    unfold Qdiv. change (/ 60)%Q with (1 # 60)%Q. lra. }
  rewrite py_int_of_Z.
  set (y := (r - 60 * inject_Z q)%Q).
  assert (Hy : (0 <= y /\ y < 60)%Q) by (unfold y; split; lra).
  rewrite (py_int_nonneg y) by tauto.
  assert (Hm_lo : (inject_Z (Qfloor y) <= y)%Q) by apply Qfloor_le.
  assert (Hm_hi : (y < inject_Z (Qfloor y + 1))%Q) by apply Qlt_floor.
  rewrite inject_Z_plus in Hm_hi. change (inject_Z 1) with 1%Q in Hm_hi.
  assert (Hm : (0 <= Qfloor y < 60)%Z).
  { split.
    - change 0%Z with (Qfloor 0). apply Qfloor_resp_le. tauto.
    - rewrite Zlt_Qlt. change (inject_Z 60) with 60%Q. lra. }
  assert (Ey : (y == r - 60 * inject_Z q)%Q) by reflexivity.
  clearbody y.
  refine (conj _ (conj Hq (conj Hm (conj _ (conj _ _))))).
  - unfold r, time_remaining_of. apply py_max_Qmax.
  - rewrite inject_Z_plus, inject_Z_mult. change (inject_Z 60) with 60%Q. lra.
  - rewrite !inject_Z_plus, inject_Z_mult.
    change (inject_Z 60) with 60%Q. change (inject_Z 1) with 1%Q. lra.
  - intros kw s lines Hplan Hrun. apply in_tiered_plans in Hplan.
    rewrite screen_run in Hrun. unfold body in Hrun. rewrite Hplan in Hrun.
    unfold render_tiered, bind in Hrun.
    destruct (render_usage_block d kw (with_header d s)) as [[[] | e] s1];
      [| discriminate Hrun].
    destruct (breakdown_writes_time d kw) as (breakdown & Hb & Hin).
    rewrite Hb in Hrun. cbn [fst] in Hrun. injection Hrun as <-.
    cbn [pushed screen_buffer]. rewrite !in_app_iff. left. now right.
Qed.

Lemma breakdown_writes_rate d kw :
  exists lines,
    writes (render_breakdown d kw) lines /\
    In ("💲 [value]Cost Rate:[/]              "
        ^^ cost_indicator_render
             (cost_per_min_of (session_cost d) (elapsed_session_minutes d))
        ^^ " [dim]$/min[/]") lines.
Proof.
  unfold render_breakdown. cbv zeta.
  destruct (per_model_stats d);
    (eexists; split;
     [ repeat first [ apply writes_append | eapply writes_if | eapply writes_seq ]
     | rewrite !in_app_iff; cbn [In]; find_in ]).
Qed.

Lemma simple_writes_rate d :
  exists lines,
    writes (render_simple d) lines /\
    In ("💲 [value]Cost Rate:[/]      "
        ^^ cost_indicator_render
             (cost_per_min_of (session_cost d) (elapsed_session_minutes d))
        ^^ " [dim]$/min[/]") lines.
Proof.
  unfold render_simple.
  destruct (per_model_stats d);
    (eexists; split;
     [ repeat first [ apply writes_append | apply writes_ret | eapply writes_seq ]
     | rewrite !in_app_iff; cbn [In]; find_in ]).
Qed.

Lemma cost_per_min_guarded (session_cost elapsed : Q) :
  ((elapsed <= 0)%Q -> cost_per_min_of session_cost elapsed = 0%Q) /\
  ((0 < elapsed)%Q -> (elapsed <= 1)%Q ->
   (cost_per_min_of session_cost elapsed == session_cost)%Q) /\
  ((1 <= elapsed)%Q ->
   (cost_per_min_of session_cost elapsed == session_cost / elapsed)%Q) /\
  ((0 <= session_cost)%Q ->
   (0 <= cost_per_min_of session_cost elapsed <= session_cost)%Q).
Proof.
  unfold cost_per_min_of.
  refine (conj _ (conj _ (conj _ _))).
  - intros H. apply Qltb_ge in H. now rewrite H.
  - intros Hpos Hle. apply Qltb_lt in Hpos. rewrite Hpos.
    rewrite py_max_Qmax, Q.max_l by exact Hle.
    unfold Qdiv. change (/ 1)%Q with 1%Q. apply Qmult_1_r.
  - intros Hge.
    assert (Hpos : (0 < elapsed)%Q) by lra.
    apply Qltb_lt in Hpos. rewrite Hpos.
    rewrite py_max_Qmax, Q.max_r by exact Hge. reflexivity.
  - intros Hcost. destruct (Qltb 0 elapsed); [| split; lra].
    assert (Hx : (1 <= py_max 1 elapsed)%Q).
    { rewrite py_max_Qmax. apply Q.le_max_l. }
    set (x := py_max 1 elapsed) in *.
    split.
    + apply Qle_shift_div_l; [lra |]. rewrite Qmult_0_l. exact Hcost.
    + apply Qle_shift_div_r; [lra |].
      rewrite <- (Qmult_1_r session_cost) at 1.
      rewrite (Qmult_comm session_cost x), Qmult_comm.
      apply Qmult_le_compat_r; lra.
Qed.

(** X18. Every active-session screen that is produced shows a cost-rate
    line, in the tiered view and in the simple one, and the rate it passes to
    the cost indicator is guarded: 0 when no time has elapsed; otherwise the
    session cost divided by the elapsed minutes, but by 1 for a session
    shorter than a minute, so that for a cost that is not negative the rate
    lies between 0 and the session cost. *)
Theorem cost_rate_is_guarded (d : SessionDisplayData) :
  let cost := session_cost d in
  let elapsed := elapsed_session_minutes d in
  exists rate,
    ((elapsed <= 0)%Q -> rate = 0%Q) /\
    ((0 < elapsed)%Q -> (elapsed <= 1)%Q -> (rate == cost)%Q) /\
    ((1 <= elapsed)%Q -> (rate == cost / elapsed)%Q) /\
    ((0 <= cost)%Q -> (0 <= rate <= cost)%Q) /\
    (forall kw s lines,
       fst (format_active_session_screen d kw s) = Ok lines ->
       (In (plan d) tiered_plans ->
        In ("💲 [value]Cost Rate:[/]              "
            ^^ cost_indicator_render rate ^^ " [dim]$/min[/]") lines) /\
       (~ In (plan d) tiered_plans ->
        In ("💲 [value]Cost Rate:[/]      "
            ^^ cost_indicator_render rate ^^ " [dim]$/min[/]") lines)).
Proof.
  cbv zeta.
  exists (cost_per_min_of (session_cost d) (elapsed_session_minutes d)).
  destruct (cost_per_min_guarded (session_cost d) (elapsed_session_minutes d))
    as (Hzero & Hshort & Hlong & Hrange).
  refine (conj Hzero (conj Hshort (conj Hlong (conj Hrange _)))).
  intros kw s lines Hrun. rewrite screen_run in Hrun. unfold body in Hrun.
  split; intros Hplan.
  - apply in_tiered_plans in Hplan. rewrite Hplan in Hrun.
    unfold render_tiered, bind in Hrun.
    destruct (render_usage_block d kw (with_header d s)) as [[[] | e] s1];
      [| discriminate Hrun].
    destruct (breakdown_writes_rate d kw) as (breakdown & Hb & Hin).
    rewrite Hb in Hrun. cbn [fst] in Hrun. injection Hrun as <-.
    cbn [pushed screen_buffer]. rewrite !in_app_iff. left. now right.
  - apply not_tiered in Hplan. rewrite Hplan in Hrun.
    destruct (simple_writes_rate d) as (simple & Hs & Hin).
    rewrite Hs in Hrun. cbn [fst] in Hrun. injection Hrun as <-.
    cbn [pushed screen_buffer]. rewrite !in_app_iff. left. now right.
Qed.

End WithCollaborators.

(** ** The screen shown when no session is active *)

Section WithTime.
Context {ext : Collaborators} {time : TimeCollaborators}.

Lemma idle_frame plan timezone token_limit shown :
  ((((((([] ++ create_header plan timezone)
        ++ ["📊 [value]Token Usage:[/]    " ^^ token_progress_render 0])
       ++ [""])
      ++ ["🎯 [value]Tokens:[/]         [value]0[/] / [dim]~"
          ^^ fmt_comma token_limit ^^ "[/] ([info]0 left[/])"])
     ++ ["🔥 [value]Burn Rate:[/]      [warning]0.0[/] [dim]tokens/min[/]"])
    ++ ["💲 [value]Cost Rate:[/]      [cost.low]$0.00[/] [dim]$/min[/]"])
   ++ ["📨 [value]Sent Messages:[/]  [info]0[/] [dim]messages[/]"])
  ++ [""] ++ [idle_status shown]
  = create_header plan timezone ++ idle_lines token_limit ++ [idle_status shown].
Proof. unfold idle_lines. cbn [app]. rewrite <- !app_assoc. reflexivity. Qed.

Lemma idle_run plan timezone token_limit current_time args :
  format_no_active_session_screen plan timezone token_limit current_time args
  = match current_time, args with
    | Some t, Some a =>
        match display_time t a with
        | ClockOk shown =>
            ClockOk (create_header plan timezone ++ idle_lines token_limit
                     ++ [idle_status shown])
        | ClockRaise (UnknownTimeZoneError _)
        | ClockRaise (Builtin (AttributeError _)) =>
            ClockOk (create_header plan timezone ++ idle_lines token_limit
                     ++ [idle_status "--:--:--"])
        | ClockRaise e => ClockRaise e
        end
    | _, _ =>
        ClockOk (create_header plan timezone ++ idle_lines token_limit
                 ++ [idle_status "--:--:--"])
    end.
Proof.
  unfold format_no_active_session_screen. cbv zeta.
  destruct current_time as [t |], args as [a |];
    try (rewrite <- idle_frame; now rewrite <- !app_assoc).
  destruct (display_time t a)
    as [shown | [zone | [msg | msg | msg | | msg | msg]]];
    try reflexivity;
    rewrite <- idle_frame; now rewrite <- !app_assoc.
Qed.

Lemma idle_length plan timezone token_limit shown :
  List.length (create_header plan timezone ++ idle_lines token_limit
               ++ [idle_status shown])
  = (List.length (create_header plan timezone) + 8)%nat.
Proof. rewrite !length_app. reflexivity. Qed.

Lemma time_outcome_run t a r :
  time_outcome t a r <-> display_time t a = r.
Proof.
  unfold display_time. split.
  - intros H. destruct H as [e H1 | zone e H1 H2 | zone tz e H1 H2 H3
                            | zone tz local e H1 H2 H3 H4
                            | zone tz local preference r H1 H2 H3 H4 H5];
      rewrite H1; cbn [cbind]; try reflexivity;
      rewrite H2; cbn [cbind]; try reflexivity;
      rewrite H3; cbn [cbind]; try reflexivity;
      rewrite H4; cbn [cbind]; try reflexivity.
    exact H5.
  - destruct (args_timezone a) as [zone | e] eqn:H1; cbn [cbind];
      [| intros <-; now apply no_timezone].
    destruct (pytz_timezone zone) as [tz | e] eqn:H2; cbn [cbind];
      [| intros <-; now apply (no_such_zone t a zone)].
    destruct (astimezone t tz) as [local | e] eqn:H3; cbn [cbind];
      [| intros <-; now apply (no_conversion t a zone tz)].
    destruct (get_time_format_preference a) as [preference | e] eqn:H4;
      cbn [cbind];
      [| intros <-; now apply (no_preference t a zone tz local)].
    intros H5. now apply (formatted t a zone tz local preference).
Qed.

(** X19. The idle screen is the header, seven lines that depend only on the
    token limit, and a status line.  When the current time or the command
    line is not given the status line shows ["--:--:--"].  Otherwise the time
    is computed in five steps ([args.timezone], [pytz.timezone], [astimezone],
    [get_time_format_preference], [format_display_time]) and the first one
    that raises decides: an [UnknownTimeZoneError] or an [AttributeError] of
    any step gives ["--:--:--"], any other exception of any step reaches the
    caller, and when no step raises the status line shows the formatted
    time.  A screen that is returned has eight lines after the header. *)
Theorem idle_screen_falls_back
    (plan timezone : string) (token_limit : Z)
    (current_time : option datetime) (args : option Args) :
  let screen :=
    format_no_active_session_screen plan timezone token_limit current_time args in
  let framed shown :=
    ClockOk (create_header plan timezone ++ idle_lines token_limit
             ++ ["⏰ [dim]" ^^ shown
                 ^^ "[/] 📝 [info]No active session[/] | [dim]Ctrl+C to exit[/] 🟨"]) in
  (current_time = None \/ args = None -> screen = framed "--:--:--") /\
  (forall t a, current_time = Some t -> args = Some a ->
     (exists r, time_outcome t a r) /\
     (forall r, time_outcome t a r ->
        match r with
        | ClockOk shown => screen = framed shown
        | ClockRaise (UnknownTimeZoneError _)
        | ClockRaise (Builtin (AttributeError _)) => screen = framed "--:--:--"
        | ClockRaise e => screen = ClockRaise e
        end)) /\
  (forall lines, screen = ClockOk lines ->
     List.length lines = (List.length (create_header plan timezone) + 8)%nat).
Proof.
  cbv zeta. rewrite idle_run. fold (idle_status "--:--:--").
  refine (conj _ (conj _ _)).
  - intros [-> | ->]; [reflexivity |]. now destruct current_time.
  - intros t a -> ->. split.
    + exists (display_time t a). now apply time_outcome_run.
    + intros r Hr. apply time_outcome_run in Hr. rewrite Hr.
      destruct r as [shown | [zone | [msg | msg | msg | | msg | msg]]];
        reflexivity.
  - intros lines.
    destruct current_time as [t |], args as [a |];
      try (intros [= <-]; apply idle_length).
    destruct (display_time t a)
      as [shown | [zone | [msg | msg | msg | | msg | msg]]];
      try discriminate; intros [= <-]; apply idle_length.
Qed.

End WithTime.

(** ** The further properties at concrete inputs *)

Lemma screen_is_framed_witness :
  exists lines,
    fst (@format_active_session_screen Standin.collaborators
           Standin.example_session no_kwargs (start Standin.new_year_2026))
    = Ok lines /\
    last lines ""
    = "⏰ [dim]10:30:00[/] 📝 [success]Active session[/] | [dim]Ctrl+C to exit[/] 🟢".
Proof.
  eexists. split; [vm_compute; reflexivity |].
  refine (proj2 (@screen_is_framed Standin.collaborators Standin.example_session
                   no_kwargs (start Standin.new_year_2026) _ _)).
  vm_compute. reflexivity.
Defined.

Lemma example_plan_is_tiered : In (plan Standin.example_session) tiered_plans.
Proof. right. left. reflexivity. Qed.

Lemma example_windows_renderable :
  renderable Standin.example_windows "five_hour" /\
  renderable Standin.example_windows "seven_day".
Proof.
  split; right; eexists _, _;
    (split; [reflexivity |]; split; [discriminate | reflexivity]).
Qed.

Lemma simple_screen_ignores_kwargs_witness :
  ~ In (plan Standin.example_simple_session) tiered_plans /\
  exists lines,
    forall kw s,
      @format_active_session_screen Standin.collaborators
        Standin.example_simple_session kw s
      = (Ok lines, mkScreen lines (clock s) (ticks s)).
Proof.
  assert (Hplan : ~ In (plan Standin.example_simple_session) tiered_plans).
  { cbn. intros [H | [H | [H | [H | []]]]]; discriminate H. }
  split; [exact Hplan |].
  destruct (@simple_screen_ignores_kwargs Standin.collaborators
              Standin.example_simple_session Hplan) as (lines & Hall).
  exists lines. intros kw s. exact (proj1 (Hall kw s)).
Defined.

Lemma multiplier_is_ignored_with_official_usage_witness :
  truthy (api_usage_of Standin.example_official) = true /\
  @format_active_session_screen Standin.collaborators Standin.example_session
    (with_multiplier Standin.example_official (Some (3 # 2)))
    (start Standin.new_year_2026)
  = @format_active_session_screen Standin.collaborators Standin.example_session
      Standin.example_official (start Standin.new_year_2026).
Proof.
  split; [reflexivity |].
  apply (@multiplier_is_ignored_with_official_usage Standin.collaborators).
  left. reflexivity.
Defined.


Lemma example_windows_float_sized :
  float_sized_window Standin.example_windows "five_hour" /\
  float_sized_window Standin.example_windows "seven_day".
Proof.
  split; intros w Hw q Hq; injection Hw as <-; injection Hq as <-;
    vm_compute; discriminate.
Qed.

Lemma official_usage_renders_or_raises_witness :
  In (plan Standin.example_session) tiered_plans /\
  Standin.example_windows <> [] /\
  float_sized_window Standin.example_windows "five_hour" /\
  float_sized_window Standin.example_windows "seven_day" /\
  exists lines,
    fst (@format_active_session_screen Standin.collaborators
           Standin.example_session Standin.example_official
           (start Standin.new_year_2026)) = Ok lines.
Proof.
  split; [exact example_plan_is_tiered |]. split; [discriminate |].
  split; [exact (proj1 example_windows_float_sized) |].
  split; [exact (proj2 example_windows_float_sized) |].
  destruct (@official_usage_renders_or_raises Standin.collaborators
              Standin.example_session Standin.example_official Standin.example_windows
              (start Standin.new_year_2026) example_plan_is_tiered eq_refl
              ltac:(discriminate)
              (proj1 example_windows_float_sized)
              (proj2 example_windows_float_sized))
    as [(_ & _ & Hok) | (Hnot & _)].
  - exact Hok.
  - exfalso. exact (Hnot example_windows_renderable).
Defined.

(** A window that is a number: the render raises. *)
Example broken_window_raises :
  fst (@format_active_session_screen Standin.collaborators
         Standin.example_session
         (mkKwargs None None (Some (PDict Standin.example_broken_windows)) None)
         (start Standin.new_year_2026))
  = Raise (AttributeError "object has no attribute 'get'").
Proof. vm_compute. reflexivity. Qed.

Lemma official_usage_not_a_dict_raises_witness :
  truthy (PList [PStr "five_hour"]) = true /\
  fst (@format_active_session_screen Standin.collaborators
         Standin.example_session
         (mkKwargs None None (Some (PList [PStr "five_hour"])) None)
         (start Standin.new_year_2026))
  = Raise (AttributeError "object has no attribute 'get'").
Proof.
  split; [reflexivity |].
  apply (@official_usage_not_a_dict_raises Standin.collaborators
           Standin.example_session
           (mkKwargs None None (Some (PList [PStr "five_hour"])) None)
           (PList [PStr "five_hour"]) (start Standin.new_year_2026)
           example_plan_is_tiered eq_refl eq_refl).
  intros a. discriminate.
Defined.

Lemma window_reset_annotation_witness :
  exists s',
    @render_window Standin.collaborators (PDict Standin.example_windows)
                   "five_hour" "5h" (start Standin.new_year_2026) = (Ok tt, s') /\
    screen_buffer s'
    = [@usage_line Standin.collaborators "5h" (1 * 100)
         "    [dim]resets in 45m[/dim]"].
Proof.
  destruct (@window_reset_annotation Standin.collaborators
              Standin.example_windows
              [("utilization", PNum 1); ("resets_at", PStr "2026-01-01T00:45:00Z")]
              "five_hour" "5h" 1 (start Standin.new_year_2026)
              eq_refl ltac:(discriminate) eq_refl)
    as (s' & annotation & Hrun & Hbuf & Hnote).
  exists s'. split; [exact Hrun |].
  rewrite Hbuf. cbn [start screen_buffer app].
  rewrite (Hnote ltac:(discriminate)). reflexivity.
Defined.

Lemma format_reset_time_under_a_minute_witness :
  fst (@_format_reset_time Standin.collaborators (PStr "2026-01-01T00:00:30Z")
         (start Standin.new_year_2026)) = Ok "in 0m".
Proof.
  apply (@format_reset_time_under_a_minute Standin.collaborators
           "2026-01-01T00:00:30Z" (Standin.new_year_2026 + 30000000)%Z
           (start Standin.new_year_2026)).
  - reflexivity.
  - cbn. lia.
Defined.

End SessionDisplayExtra.

(* ================================================================== *)
(** * Worked values of the Python fragment                              *)
(* ================================================================== *)

Example fmt_f_beyond_100 : Py.fmt_f 4 1 134 = "134.0".
Proof. reflexivity. Qed.

Example fmt_f_padded : Py.fmt_f 4 1 (3 # 2) = " 1.5".
Proof. reflexivity. Qed.

Example fmt_f_tie_to_even : Py.fmt_f 4 1 (1 # 4) = " 0.2".
Proof. reflexivity. Qed.

Example fmt_f_negative_zero : Py.fmt_f 4 1 (- (1 # 25)) = "-0.0".
Proof. reflexivity. Qed.

Example fmt_f_cents : Py.fmt_f 0 2 (1234567 # 1000) = "1234.57".
Proof. reflexivity. Qed.

Example fmt_comma_millions : Py.fmt_comma 1234567 = "1,234,567".
Proof. reflexivity. Qed.

Example fmt_comma_negative : Py.fmt_comma (-1000) = "-1,000".
Proof. reflexivity. Qed.

Example fmt_comma_hundreds : Py.fmt_comma 999 = "999".
Proof. reflexivity. Qed.

Example py_round_two_places : (Py.py_round (12345 # 1000) 2 == 1234 # 100)%Q.
Proof. reflexivity. Qed.

Example slice_last_keeps_tail : Py.slice_last 2 [1; 2; 3]%nat = [2; 3]%nat.
Proof. reflexivity. Qed.

Example replace_Z_suffix :
  SessionDisplay.replace_Z "2026-01-01T00:45:00Z" = "2026-01-01T00:45:00+00:00".
Proof. reflexivity. Qed.

Example parse_iso_new_year :
  Standin.parse_iso "2026-01-01T00:00:00+00:00"
  = Some (SessionDisplay.Aware Standin.new_year_2026).
Proof. reflexivity. Qed.
